(** * IPA dynamic DNS update scheduling (src/providers/ipa/ipa_dyndns.c)

    A shallow embedding of the callbacks of [ipa_dyndns.c]: the periodic
    timer callback [ipa_dyndns_timer], its continuation
    [ipa_dyndns_timer_connected], the online callback [ipa_dyndns_update],
    the request constructor [ipa_dyndns_update_send] and the two completion
    handlers.  The C code runs on a single-threaded event loop; every
    callback is embedded as a state transformer over a [world] that holds
    the [ipa_options] context, the string buffers the context points to,
    and the trace, oldest first, of the calls made to the collaborators
    (timer, connection cache, nsupdate operation, debug log). *)

From Stdlib Require Import ZArith List String Ascii Bool Lia.
Import ListNotations.
Open Scope string_scope.
Open Scope list_scope.
Open Scope Z_scope.

(** ** C values *)

(** [errno_t] and the two codes this file uses (EIO as in <errno.h> on
    Linux; only its being different from EOK matters). *)
Definition errno_t := Z.
Definition EOK : errno_t := 0.
Definition EIO : errno_t := 5.

(** [dp_error] codes of providers/data_provider.h. *)
Definition DP_ERR_OK : Z := 0.
Definition DP_ERR_OFFLINE : Z := 1.

(** [time_t]: seconds, a signed 64-bit integer.  Signed overflow is
    undefined in C; [last_refresh + 60] is modelled by the sum in [Z] and
    the statements that depend on it assume the sum is in range. *)
Definition time_t := Z.
Definition TIME_T_MAX : Z := 2 ^ 63 - 1.
Definition time_t_ok (t : Z) : Prop := 0 <= t <= TIME_T_MAX.

(** Debug levels used by this file (util/util.h). *)
Inductive debug_level :=
| SSSDBG_CRIT_FAILURE
| SSSDBG_OP_FAILURE
| SSSDBG_MINOR_FAILURE
| SSSDBG_FUNC_DATA
| SSSDBG_TRACE_FUNC.

(** ** C strings

    A buffer is the [string] of its bytes; reading stops at the first NUL
    byte or at the end of the [string], whichever comes first. *)

Definition is_nul (c : ascii) : bool := Ascii.eqb c zero.

(** The string a reader of the buffer sees. *)
Fixpoint c_str (s : string) : string :=
  match s with
  | EmptyString => EmptyString
  | String c r => if is_nul c then EmptyString else String c (c_str r)
  end.

(** [tolower] of <ctype.h> in the C locale. *)
Definition tolower (c : ascii) : ascii :=
  let n := N_of_ascii c in
  if ((65 <=? n) && (n <=? 90))%N then ascii_of_N (n + 32) else c.

(** for (i = 0; dns_zone[i] != '\0'; i++) dns_zone[i] = tolower(dns_zone[i]);
    the buffer after the loop. *)
Fixpoint lower_loop (s : string) : string :=
  match s with
  | EmptyString => EmptyString
  | String c r => if is_nul c then s else String (tolower c) (lower_loop r)
  end.

(** [strncmp a b n == 0]. *)
Fixpoint strncmp_eq (a b : string) (n : nat) : bool :=
  match n with
  | O => true
  | S n' =>
      match a, b with
      | EmptyString, EmptyString => true
      | EmptyString, String y _ => is_nul y
      | String x _, EmptyString => is_nul x
      | String x a', String y b' =>
          if Ascii.eqb x y
          then (if is_nul x then true else strncmp_eq a' b' n')
          else false
      end
  end.

(** Pointer arithmetic [s + n] inside a buffer. *)
Fixpoint advance (n : nat) (s : string) : string :=
  match n, s with
  | O, _ => s
  | S n', String _ r => advance n' r
  | S _, EmptyString => EmptyString
  end.

(** ** Memory and option stores

    String options are [char *] fields of [struct dp_option]; the buffers
    live in a heap indexed by address, so that two pointers to the same
    buffer see each other's writes. *)

Definition ptr := N.
Definition heap_t := ptr -> string.

Definition heap_store (p : ptr) (v : string) (h : heap_t) : heap_t :=
  fun q => if N.eqb q p then v else h q.

Definition deref (h : heap_t) (p : option ptr) : option string :=
  option_map (fun q => c_str (h q)) p.

(** The entries of [ctx->basic] and of [ctx->dyndns_ctx->opts] that this
    file reads. *)
Inductive ipa_opt := IPA_DOMAIN | IPA_HOSTNAME | IPA_KRB5_REALM.
Inductive dyndns_opt := DP_OPT_DYNDNS_IFACE | DP_OPT_DYNDNS_TTL.

Record dp_options (K : Type) := {
  opt_string : K -> option ptr;   (* val.string, None is NULL *)
  opt_number : K -> Z             (* val.number *)
}.
Arguments opt_string {K}.
Arguments opt_number {K}.

(** Modelled from the spec: [dp_opt_get_string] and [dp_opt_get_int] are
    declared in providers/data_provider.h and defined outside this file.
    The config store is [getString(key) -> value|absent] and
    [getInt(key) -> value]; the value handed out is the buffer the store
    holds (the spec's "mutable buffer" and "in-place string mutation of
    shared configuration values"): the getter has no memory context to
    allocate a copy on and its callers here never free the result. *)
Definition dp_opt_get_string {K} (o : dp_options K) (id : K) : option ptr :=
  opt_string o id.
Definition dp_opt_get_int {K} (o : dp_options K) (id : K) : Z :=
  opt_number o id.

(** struct be_nsupdate_ctx (providers/dp_dyndns.h): the scheduler state. *)
Record be_nsupdate_ctx := {
  opts : dp_options dyndns_opt;
  last_refresh : time_t;
  timer_in_progress : bool
}.

(** struct ipa_options, restricted to what the dyndns code reaches:
    [basic], [dyndns_ctx] and [service->sdap->uri]. *)
Record ipa_options := {
  basic : dp_options ipa_opt;
  dyndns_ctx : be_nsupdate_ctx;
  uri : string
}.

(** ** Calls to collaborators *)

(** The arguments of [sdap_dyndns_update_send], strings as the callee
    reads them at the time of the call. *)
Record update_args := {
  arg_ifname : option string;
  arg_hostname : option string;
  arg_dns_zone : string;
  arg_realm : option string;
  arg_servername : string;
  arg_ttl : Z;
  arg_flag : bool
}.

Inductive event :=
| Debug (lvl : debug_level) (msg : string) (args : list Z)
| Call_be_nsupdate_timer_schedule
| Call_sdap_id_op_connect_send
| Call_sdap_dyndns_update_send (a : update_args).

(** A trace entry: the call, and the scheduler state the callee can see
    when it is made. *)
Record obs := {
  seen_in_progress : bool;
  seen_last_refresh : time_t;
  what : event
}.

Record world := {
  ctx : ipa_options;
  heap : heap_t;
  trace : list obs
}.

(** ** A state monad over [world] *)

Definition M (A : Type) : Type := world -> A * world.

Definition mret {A} (a : A) : M A := fun w => (a, w).
Definition bind {A B} (m : M A) (k : A -> M B) : M B :=
  fun w => let (a, w') := m w in k a w'.

Declare Scope dyndns_scope.
Delimit Scope dyndns_scope with dyndns.
Notation "x <- m ;; k" := (bind m (fun x => k))
  (at level 61, m at next level, right associativity) : dyndns_scope.
Notation "m ;; k" := (bind m (fun _ => k))
  (at level 61, right associativity) : dyndns_scope.
Open Scope dyndns_scope.

Definition exec {A} (m : M A) (w : world) : world := snd (m w).
Definition eval {A} (m : M A) (w : world) : A := fst (m w).

Definition get_ctx : M ipa_options := fun w => (ctx w, w).
Definition get_heap : M heap_t := fun w => (heap w, w).

(** The entry a call made in state [c] leaves in the trace. *)
Definition observe (c : ipa_options) (e : event) : obs :=
  {| seen_in_progress := timer_in_progress (dyndns_ctx c);
     seen_last_refresh := last_refresh (dyndns_ctx c);
     what := e |}.

Definition emit (e : event) : M unit := fun w =>
  (tt, {| ctx := ctx w; heap := heap w;
          trace := trace w ++ [observe (ctx w) e] |}).

Definition DEBUG (lvl : debug_level) (msg : string) (args : list Z) : M unit :=
  emit (Debug lvl msg args).

Definition with_dyndns (f : be_nsupdate_ctx -> be_nsupdate_ctx) : M unit :=
  fun w =>
  (tt, {| ctx := {| basic := basic (ctx w);
                    dyndns_ctx := f (dyndns_ctx (ctx w));
                    uri := uri (ctx w) |};
          heap := heap w; trace := trace w |}).

(** ctx->dyndns_ctx->timer_in_progress = b; *)
Definition set_timer_in_progress (b : bool) : M unit :=
  with_dyndns (fun d => {| opts := opts d; last_refresh := last_refresh d;
                           timer_in_progress := b |}).

(** ctx->dyndns_ctx->last_refresh = t; *)
Definition set_last_refresh (t : time_t) : M unit :=
  with_dyndns (fun d => {| opts := opts d; last_refresh := t;
                           timer_in_progress := timer_in_progress d |}).

(** A write of the whole buffer at [p]. *)
Definition write_buf (p : ptr) (v : string) : M unit := fun w =>
  (tt, {| ctx := ctx w; heap := heap_store p v (heap w); trace := trace w |}).

(** be_nsupdate_timer_schedule(ev, ctx->dyndns_ctx), defined in
    providers/dp_dyndns.c: recorded as a call. *)
Definition be_nsupdate_timer_schedule : M unit :=
  emit Call_be_nsupdate_timer_schedule.

(** ** tevent requests

    libtevent's request object, as far as this file uses it: its state,
    whether an immediate trigger has been posted to the event loop, and
    the completion callback.  [ipa_dyndns_nsupdate_done] is the only
    callback this file installs on a request of its own. *)

Inductive tevent_req_state :=
| TEVENT_REQ_IN_PROGRESS
| TEVENT_REQ_DONE
| TEVENT_REQ_USER_ERROR (err : Z).

Inductive req_callback := CB_ipa_dyndns_nsupdate_done.

Record tevent_req := {
  req_state : tevent_req_state;
  req_posted : bool;
  req_fn : option req_callback
}.

(** tevent_req_create: a fresh request, in progress, no callback yet. *)
Definition tevent_req_create : tevent_req :=
  {| req_state := TEVENT_REQ_IN_PROGRESS; req_posted := false; req_fn := None |}.

Definition tevent_req_set_callback (r : tevent_req) (cb : req_callback)
  : tevent_req :=
  {| req_state := req_state r; req_posted := req_posted r; req_fn := Some cb |}.

(** tevent_req_post: the event loop will trigger the request's callback
    on its next iteration. *)
Definition tevent_req_post (r : tevent_req) : tevent_req :=
  {| req_state := req_state r; req_posted := true; req_fn := req_fn r |}.

Definition set_req_state (r : tevent_req) (s : tevent_req_state) : tevent_req :=
  {| req_state := s; req_posted := req_posted r; req_fn := req_fn r |}.

(** TEVENT_REQ_RETURN_ON_ERROR(req); return EOK;  (the macro is defined in
    util/util.h: a user error returns its code, any other state but DONE
    returns EIO). *)
Definition ipa_dyndns_update_recv (r : tevent_req) : errno_t :=
  match req_state r with
  | TEVENT_REQ_DONE => EOK
  | TEVENT_REQ_USER_ERROR err => err
  | TEVENT_REQ_IN_PROGRESS => EIO
  end.

Definition ipa_dyndns_nsupdate_done (r : tevent_req) : M unit :=
  let ret := ipa_dyndns_update_recv r in
  (* talloc_free(req) *)
  if negb (ret =? EOK) then
    DEBUG SSSDBG_OP_FAILURE "Updating DNS entry failed [%d]: %s" [ret]
  else
    DEBUG SSSDBG_OP_FAILURE "DNS update finished" [].

Definition run_callback (cb : req_callback) (r : tevent_req) : M unit :=
  match cb with
  | CB_ipa_dyndns_nsupdate_done => ipa_dyndns_nsupdate_done r
  end.

(** The request's callback is called, if one is set. *)
Definition tevent_req_notify (r : tevent_req) : M unit :=
  match req_fn r with
  | Some cb => run_callback cb r
  | None => mret tt
  end.

(** tevent_req_done(req) *)
Definition tevent_req_done (r : tevent_req) : M tevent_req :=
  let r' := set_req_state r TEVENT_REQ_DONE in
  tevent_req_notify r' ;; mret r'.

(** tevent_req_error(req, error): nothing happens for error 0. *)
Definition tevent_req_error (r : tevent_req) (error : Z) : M tevent_req :=
  if error =? 0 then mret r
  else
    let r' := set_req_state r (TEVENT_REQ_USER_ERROR error) in
    tevent_req_notify r' ;; mret r'.

(** What the event loop does with a posted request. *)
Definition tevent_trigger (r : tevent_req) : M unit := tevent_req_notify r.

(** ** The update request *)

(** What the environment answers during [ipa_dyndns_update_send]:
    whether [tevent_req_create] returns a request, the two readings of
    [time(NULL)] (at the gate, and when [last_refresh] is stamped), and
    whether [sdap_dyndns_update_send] returns a subrequest. *)
Record send_oracle := {
  tevent_req_create_ok : bool;
  time_at_gate : time_t;
  time_at_stamp : time_t;
  sdap_dyndns_update_send_ok : bool
}.

(** The code after the label [done:]. *)
Definition update_send_done (ret : errno_t) (req : tevent_req)
  : M (option tevent_req) :=
  if negb (ret =? EOK) then
    req <- tevent_req_error req ret ;;
    mret (Some (tevent_req_post req))
  else mret (Some req).

(** The condition of the gate:
    last_refresh + 60 > time(NULL) || timer_in_progress. *)
Definition gate_denies (c : ipa_options) (now : time_t) : bool :=
  (last_refresh (dyndns_ctx c) + 60 >? now)
  || timer_in_progress (dyndns_ctx c).

(** The arguments the nsupdate operation is called with, in context [c]
    with buffers [h], for the zone buffer [dns_zone]. *)
Definition update_request (c : ipa_options) (h : heap_t) (dns_zone : ptr)
  : update_args :=
  {| arg_ifname :=
       deref h (dp_opt_get_string (opts (dyndns_ctx c)) DP_OPT_DYNDNS_IFACE);
     arg_hostname := deref h (dp_opt_get_string (basic c) IPA_HOSTNAME);
     arg_dns_zone := c_str (h dns_zone);
     arg_realm := deref h (dp_opt_get_string (basic c) IPA_KRB5_REALM);
     (* servername = uri + 7, never NULL *)
     arg_servername := c_str (advance 7 (uri c));
     arg_ttl := dp_opt_get_int (opts (dyndns_ctx c)) DP_OPT_DYNDNS_TTL;
     arg_flag := true |}.

Definition ipa_dyndns_update_send (o : send_oracle) : M (option tevent_req) :=
  DEBUG SSSDBG_TRACE_FUNC "Performing update" [] ;;
  if negb (tevent_req_create_ok o) then mret None
  else
    let req := tevent_req_create in
    c <- get_ctx ;;
    if gate_denies c (time_at_gate o) then
      DEBUG SSSDBG_FUNC_DATA
        "Last periodic update ran recently or timerin progress, not scheduling another update"
        [] ;;
      req <- tevent_req_done req ;;
      mret (Some (tevent_req_post req))
    else
      set_last_refresh (time_at_stamp o) ;;
      match dp_opt_get_string (basic c) IPA_DOMAIN with
      | None => update_send_done EIO req
      | Some dns_zone =>
          (* The DNS zone for IPA is the lower-case version of the IPA
             domain: the loop writes through the pointer it was given. *)
          h <- get_heap ;;
          write_buf dns_zone (lower_loop (h dns_zone)) ;;
          if negb (strncmp_eq (uri c) "ldap://" 7) then
            DEBUG SSSDBG_CRIT_FAILURE "Unexpected format of LDAP URI." [] ;;
            update_send_done EIO req
          else
            h <- get_heap ;;
            emit (Call_sdap_dyndns_update_send (update_request c h dns_zone)) ;;
            if negb (sdap_dyndns_update_send_ok o) then
              DEBUG SSSDBG_OP_FAILURE
                "sdap_id_op_connect_send failed: [%d](%s)" [EIO] ;;
              update_send_done EIO req
            else
              (* tevent_req_set_callback(subreq,
                                         ipa_dyndns_sdap_update_done, req) *)
              update_send_done EOK req
      end.

(** The online callback.  The result is the request the event loop is
    left with, [None] when no request could be created. *)
Definition ipa_dyndns_update (o : send_oracle) : M (option tevent_req) :=
  (* Schedule timer after provider went offline *)
  be_nsupdate_timer_schedule ;;
  req <- ipa_dyndns_update_send o ;;
  match req with
  | None => DEBUG SSSDBG_CRIT_FAILURE "Could not update DNS" [] ;; mret None
  | Some r =>
      mret (Some (tevent_req_set_callback r CB_ipa_dyndns_nsupdate_done))
  end.

(** Completion of the nsupdate subrequest; [ret] is what
    [sdap_dyndns_update_recv] returns. *)
Definition ipa_dyndns_sdap_update_done (ret : errno_t) (req : tevent_req)
  : M unit :=
  if negb (ret =? EOK) then
    DEBUG SSSDBG_OP_FAILURE "Dynamic DNS update failed [%d]: %s" [ret] ;;
    _ <- tevent_req_error req ret ;; mret tt
  else
    _ <- tevent_req_done req ;; mret tt.

(** ** The periodic timer *)

(** What the environment answers during [ipa_dyndns_timer]: whether
    [talloc_zero] and [sdap_id_op_create] return an object, and the error
    [sdap_id_op_connect_send] reports when it returns NULL. *)
Record timer_oracle := {
  talloc_zero_ok : bool;
  sdap_id_op_create_ok : bool;
  sdap_id_op_connect_send_err : option errno_t
}.

Inductive timer_status :=
| TIMER_NO_MEMORY      (* returned before anything was done *)
| TIMER_FAILED         (* left through the label fail: *)
| TIMER_CONNECTING.    (* ipa_dyndns_timer_connected is registered *)

(** The code after the label [fail:]. *)
Definition timer_fail : M timer_status :=
  set_timer_in_progress false ;;
  be_nsupdate_timer_schedule ;;
  mret TIMER_FAILED.

Definition ipa_dyndns_timer (o : timer_oracle) : M timer_status :=
  if negb (talloc_zero_ok o) then
    DEBUG SSSDBG_CRIT_FAILURE "Out of memory" [] ;;
    (* Not much we can do *)
    mret TIMER_NO_MEMORY
  else
    (* In order to prevent the connection triggering an online callback
       which would in turn trigger a concurrent DNS update *)
    set_timer_in_progress true ;;
    if negb (sdap_id_op_create_ok o) then
      DEBUG SSSDBG_OP_FAILURE "sdap_id_op_create failed" [] ;;
      timer_fail
    else
      emit Call_sdap_id_op_connect_send ;;
      match sdap_id_op_connect_send_err o with
      | Some ret =>
          DEBUG SSSDBG_OP_FAILURE
            "sdap_id_op_connect_send failed: [%d](%s)" [ret] ;;
          timer_fail
      | None => mret TIMER_CONNECTING
      end.

(** The continuation of the connection attempt; [ret] and [dp_error] are
    what [sdap_id_op_connect_recv] returns. *)
Definition ipa_dyndns_timer_connected (ret : errno_t) (dp_error : Z)
  (o : send_oracle) : M (option tevent_req) :=
  set_timer_in_progress false ;;
  if negb (ret =? EOK) then
    (if dp_error =? DP_ERR_OFFLINE then
       DEBUG SSSDBG_MINOR_FAILURE
         "No IPA server is available, dynamic DNS update is skipped in offline mode."
         []
       (* Another timer will be scheduled when provider goes online
          and ipa_dyndns_update() is called *)
     else
       DEBUG SSSDBG_OP_FAILURE
         "Failed to connect to LDAP server: [%d](%s)" [ret] ;;
       (* Just schedule another dyndns retry *)
       be_nsupdate_timer_schedule) ;;
    mret None
  else
    (* all OK just call ipa_dyndns_update and schedule another refresh *)
    be_nsupdate_timer_schedule ;;
    ipa_dyndns_update o.

(** ** Whole cycles

    A request left with the event loop is completed either by the posted
    trigger (the gate denied, or an early exit) or by the completion of
    the nsupdate subrequest with result [upd_ret]. *)
Definition complete (upd_ret : errno_t) (r : option tevent_req) : M unit :=
  match r with
  | None => mret tt
  | Some req =>
      if req_posted req then tevent_trigger req
      else ipa_dyndns_sdap_update_done upd_ret req
  end.

(** A cycle started by the online callback. *)
Definition online_cycle (o : send_oracle) (upd_ret : errno_t) : M unit :=
  r <- ipa_dyndns_update o ;;
  complete upd_ret r.

(** The answers of the environment along a cycle started by the timer. *)
Record cycle_oracle := {
  at_timer : timer_oracle;
  conn_ret : errno_t;
  conn_dp_error : Z;
  at_send : send_oracle;
  update_ret : errno_t
}.

(** A cycle started by the periodic timer. *)
Definition periodic_cycle (c : cycle_oracle) : M unit :=
  s <- ipa_dyndns_timer (at_timer c) ;;
  match s with
  | TIMER_CONNECTING =>
      r <- ipa_dyndns_timer_connected (conn_ret c) (conn_dp_error c)
                                      (at_send c) ;;
      complete (update_ret c) r
  | _ => mret tt
  end.

(** ** Counting calls in a trace *)

Definition is_schedule (e : event) : bool :=
  match e with Call_be_nsupdate_timer_schedule => true | _ => false end.

Definition is_update (e : event) : bool :=
  match e with Call_sdap_dyndns_update_send _ => true | _ => false end.

Definition count_if (f : event -> bool) (t : list obs) : nat :=
  List.length (filter (fun x => f (what x)) t).

(** How often the periodic timer was re-armed, and how often the update
    operation was invoked. *)
Definition rearms (t : list obs) : nat := count_if is_schedule t.
Definition updates (t : list obs) : nat := count_if is_update t.

(** The calls a computation adds to the trace. *)
Definition added {A} (m : M A) (w : world) : list obs :=
  skipn (List.length (trace w)) (trace (exec m w)).

(** ** Overlapping triggers

    The event loop between the start of a connection attempt and its
    completion: triggers fire one after the other.  [attempts] counts the
    connection attempts whose continuation is still to run;
    [timer_armed] says whether the periodic timer is set.

    Modelled from the spec: the timer itself ([be_nsupdate_timer_schedule]
    and the code that fires the callback are in providers/dp_dyndns.c) is
    a one-shot, "re-arming is the caller's responsibility each time": the
    timer callback runs only if the scheduler was called since the timer
    last fired. *)
Inductive trigger :=
| Periodic (o : timer_oracle)
| Online (o : send_oracle).

Record system := {
  sys_world : world;
  attempts : nat;
  timer_armed : bool
}.

(** The computation called the scheduler. *)
Definition rearmed (before after : world) : bool :=
  (rearms (trace before) <? rearms (trace after))%nat.

Definition fire (s : system) (t : trigger) : system :=
  match t with
  | Periodic o =>
      if timer_armed s then
        let (st, w') := ipa_dyndns_timer o (sys_world s) in
        {| sys_world := w';
           attempts := match st with
                       | TIMER_CONNECTING => S (attempts s)
                       | _ => attempts s
                       end;
           timer_armed := rearmed (sys_world s) w' |}
      else s                         (* no timer is set: nothing fires *)
  | Online o =>
      let w' := exec (ipa_dyndns_update o) (sys_world s) in
      {| sys_world := w';
         attempts := attempts s;
         timer_armed := timer_armed s || rearmed (sys_world s) w' |}
  end.

Definition fire_all (s : system) (ts : list trigger) : system :=
  fold_left fire ts s.

(** ** Worlds and events named in the statements *)

(** [c] with [last_refresh] stamped. *)
Definition stamp (t : time_t) (c : ipa_options) : ipa_options :=
  {| basic := basic c;
     dyndns_ctx := {| opts := opts (dyndns_ctx c); last_refresh := t;
                      timer_in_progress := timer_in_progress (dyndns_ctx c) |};
     uri := uri c |}.

(** [c] with the flag set to [b]. *)
Definition flagged (b : bool) (c : ipa_options) : ipa_options :=
  {| basic := basic c;
     dyndns_ctx := {| opts := opts (dyndns_ctx c);
                      last_refresh := last_refresh (dyndns_ctx c);
                      timer_in_progress := b |};
     uri := uri c |}.

(** The buffers once the loop has run over the buffer at [p]. *)
Definition lowered (p : ptr) (h : heap_t) : heap_t :=
  heap_store p (lower_loop (h p)) h.

Definition with_flag (b : bool) (w : world) : world :=
  {| ctx := flagged b (ctx w); heap := heap w; trace := trace w |}.

Definition logged (w : world) (e : event) : world :=
  {| ctx := ctx w; heap := heap w; trace := trace w ++ [observe (ctx w) e] |}.

Definition scheduled (w : world) : world :=
  logged w Call_be_nsupdate_timer_schedule.

Definition req_in (s : tevent_req_state) (posted : bool) : tevent_req :=
  {| req_state := s; req_posted := posted; req_fn := None |}.

Definition performing : event := Debug SSSDBG_TRACE_FUNC "Performing update" [].
Definition not_scheduling : event :=
  Debug SSSDBG_FUNC_DATA
    "Last periodic update ran recently or timerin progress, not scheduling another update"
    [].
Definition unexpected_uri : event :=
  Debug SSSDBG_CRIT_FAILURE "Unexpected format of LDAP URI." [].
Definition no_subrequest : event :=
  Debug SSSDBG_OP_FAILURE "sdap_id_op_connect_send failed: [%d](%s)" [EIO].
Definition could_not_update : event :=
  Debug SSSDBG_CRIT_FAILURE "Could not update DNS" [].
Definition skipped_offline : event :=
  Debug SSSDBG_MINOR_FAILURE
    "No IPA server is available, dynamic DNS update is skipped in offline mode."
    [].
Definition connect_failed (ret : errno_t) : event :=
  Debug SSSDBG_OP_FAILURE "Failed to connect to LDAP server: [%d](%s)" [ret].
Definition update_finished : event :=
  Debug SSSDBG_OP_FAILURE "DNS update finished" [].
Definition update_failed (ret : errno_t) : event :=
  Debug SSSDBG_OP_FAILURE "Updating DNS entry failed [%d]: %s" [ret].
Definition sdap_update_failed (ret : errno_t) : event :=
  Debug SSSDBG_OP_FAILURE "Dynamic DNS update failed [%d]: %s" [ret].

(** How often a cycle started by the periodic timer calls
    [be_nsupdate_timer_schedule], by the answers of the environment. *)
Definition periodic_rearms (c : cycle_oracle) : nat :=
  if negb (talloc_zero_ok (at_timer c)) then 0%nat  (* nothing is done *)
  else if negb (sdap_id_op_create_ok (at_timer c)) then 1%nat  (* fail: *)
  else match sdap_id_op_connect_send_err (at_timer c) with
       | Some _ => 1%nat                                        (* fail: *)
       | None =>
           if conn_ret c =? EOK then 2%nat     (* continuation + update *)
           else if conn_dp_error c =? DP_ERR_OFFLINE then 0%nat (* offline *)
           else 1%nat                              (* another dyndns retry *)
       end.

(** ** A configured client

    The IPA domain is EXAMPLE.TEST; the buffers 1, 2 and 3 hold the
    domain, the host name and the realm. *)

Definition ex_basic : dp_options ipa_opt :=
  {| opt_string := fun k => match k with
                            | IPA_DOMAIN => Some 1%N
                            | IPA_HOSTNAME => Some 2%N
                            | IPA_KRB5_REALM => Some 3%N
                            end;
     opt_number := fun _ => 0 |}.

Definition ex_opts : dp_options dyndns_opt :=
  {| opt_string := fun _ => None;
     opt_number := fun k => match k with
                            | DP_OPT_DYNDNS_TTL => 1200
                            | _ => 0
                            end |}.

Definition ex_heap : heap_t := fun p =>
  match p with
  | 1%N => "EXAMPLE.TEST"
  | 2%N => "client.example.test"
  | 3%N => "EXAMPLE.TEST"
  | _ => ""
  end.

(** The client with [last_refresh = T], the flag [b] and the URI [u] of
    the connected server. *)
Definition ex_world (T : time_t) (b : bool) (u : string) : world :=
  {| ctx := {| basic := ex_basic;
               dyndns_ctx := {| opts := ex_opts; last_refresh := T;
                                timer_in_progress := b |};
               uri := u |};
     heap := ex_heap;
     trace := [] |}.

(** No allocation fails, and [time(NULL)] is [now]. *)
Definition ex_send (now : time_t) : send_oracle :=
  {| tevent_req_create_ok := true; time_at_gate := now; time_at_stamp := now;
     sdap_dyndns_update_send_ok := true |}.

Definition ex_timer : timer_oracle :=
  {| talloc_zero_ok := true; sdap_id_op_create_ok := true;
     sdap_id_op_connect_send_err := None |}.

(** A periodic cycle whose connection attempt ends with [ret] and
    [dp_error], at time [now]; the update, if it runs, succeeds. *)
Definition ex_cycle (ret : errno_t) (dp_error : Z) (now : time_t)
  : cycle_oracle :=
  {| at_timer := ex_timer; conn_ret := ret; conn_dp_error := dp_error;
     at_send := ex_send now; update_ret := EOK |}.

(** The string [s] with [f] applied to every byte. *)
Fixpoint str_map (f : ascii -> ascii) (s : string) : string :=
  match s with
  | EmptyString => EmptyString
  | String c r => String (f c) (str_map f r)
  end.

(** The error [ipa_dyndns_nsupdate_done] receives for the request [r] the
    event loop was left with: the state of a posted request, else the
    result [upd_ret] of the nsupdate subrequest. *)
Definition cycle_errno (r : tevent_req) (upd_ret : errno_t) : errno_t :=
  if req_posted r then ipa_dyndns_update_recv r else upd_ret.

(** The message [ipa_dyndns_nsupdate_done] ends a cycle with. *)
Definition nsupdate_done_log (ret : errno_t) : event :=
  if ret =? EOK then Debug SSSDBG_OP_FAILURE "DNS update finished" []
  else Debug SSSDBG_OP_FAILURE "Updating DNS entry failed [%d]: %s" [ret].

(** [s] begins with the scheme the code expects. *)
Definition has_ldap_scheme (s : string) : bool := String.prefix "ldap://" s.

(** The call of the update operation by a cycle started from [w]: it is
    made with [last_refresh] already stamped and the zone buffer
    [dns_zone] already lower-cased. *)
Definition the_update_call (o : send_oracle) (w : world) (dns_zone : ptr)
  : obs :=
  observe (stamp (time_at_stamp o) (ctx w))
    (Call_sdap_dyndns_update_send
       (update_request (ctx w) (lowered dns_zone (heap w)) dns_zone)).

(** No byte of [s] is NUL. *)
Fixpoint no_nul (s : string) : bool :=
  match s with
  | EmptyString => true
  | String c r => negb (is_nul c) && no_nul r
  end.

(** ** Observations on the system *)

Definition sys_flag (s : system) : bool :=
  timer_in_progress (dyndns_ctx (ctx (sys_world s))).
Definition sys_last_refresh (s : system) : time_t :=
  last_refresh (dyndns_ctx (ctx (sys_world s))).
Definition sys_updates (s : system) : nat := updates (trace (sys_world s)).

(** A trigger that does not run the code after [fail:] of
    [ipa_dyndns_timer]: an online callback, or a timer callback that
    returns early or starts its connection attempt. *)
Definition keeps_flag (t : trigger) : bool :=
  match t with
  | Online _ => true
  | Periodic o =>
      negb (talloc_zero_ok o)
      || (sdap_id_op_create_ok o
          && match sdap_id_op_connect_send_err o with
             | None => true
             | Some _ => false
             end)
  end.

Definition is_online (t : trigger) : bool :=
  match t with Online _ => true | Periodic _ => false end.

(** A timer callback for which [sdap_id_op_create] returns NULL. *)
Definition ex_timer_fails : timer_oracle :=
  {| talloc_zero_ok := true; sdap_id_op_create_ok := false;
     sdap_id_op_connect_send_err := None |}.

(** The client, idle, and then with the connection attempt of a first
    timer callback outstanding. *)
Definition ex_idle : system :=
  {| sys_world := ex_world 1000 false "ldap://ipa.example.test";
     attempts := 0; timer_armed := true |}.
Definition ex_connecting : system := fire ex_idle (Periodic ex_timer).

(** A client with no domain configured. *)
Definition ex_no_domain : world :=
  {| ctx := {| basic := {| opt_string := fun _ => None;
                           opt_number := fun _ => 0 |};
               dyndns_ctx := {| opts := ex_opts; last_refresh := 1000;
                                timer_in_progress := false |};
               uri := "ldap://ipa.example.test" |};
     heap := ex_heap; trace := [] |}.

(** ** Cycles that reach [ipa_dyndns_update] *)

(** The timer callback starts its connection attempt and the attempt
    succeeds. *)
Definition connects (c : cycle_oracle) : bool :=
  talloc_zero_ok (at_timer c)
  && sdap_id_op_create_ok (at_timer c)
  && match sdap_id_op_connect_send_err (at_timer c) with
     | None => true
     | Some _ => false
     end
  && (conn_ret c =? EOK).

(** The world in which such a periodic cycle enters [ipa_dyndns_update]:
    the attempt was started with the flag set, the continuation cleared
    the flag and re-armed the timer. *)
Definition after_connect (w : world) : world :=
  scheduled (with_flag false
    (logged (with_flag true w) Call_sdap_id_op_connect_send)).

(** [m] is a cycle that runs [ipa_dyndns_update] with the answers [o]
    and [upd_ret]: an online cycle, or a periodic cycle that connects. *)
Definition cycle_with (o : send_oracle) (upd_ret : errno_t) (m : M unit)
  : Prop :=
  m = online_cycle o upd_ret
  \/ exists c, connects c = true /\ at_send c = o /\ update_ret c = upd_ret
               /\ m = periodic_cycle c.

(** ** Initialisation (ipa_dyndns_init)

    [ipa_dyndns_init] copies the resolver of the backend into the
    options and registers [ipa_dyndns_update] as online callback.  Its
    state is the resolver pointer of the options and the calls it makes;
    [be_add_online_cb] (providers/data_provider_callbacks.c) is recorded
    as a call and answers with the error the environment gives. *)

Definition EINVAL : errno_t := 22.

Inductive init_event :=
| Init_debug (lvl : debug_level) (msg : string)
| Call_be_add_online_cb.

Record init_state := {
  ctx_be_res : option ptr;          (* ctx->be_res, None is NULL *)
  init_trace : list init_event
}.

Definition init_log (s : init_state) (e : init_event) : init_state :=
  {| ctx_be_res := ctx_be_res s; init_trace := init_trace s ++ [e] |}.

Definition ipa_dyndns_init (be_ctx_be_res : option ptr)
  (be_add_online_cb_ret : errno_t) (s : init_state) : errno_t * init_state :=
  (* ctx->be_res = be_ctx->be_res; *)
  let s := {| ctx_be_res := be_ctx_be_res; init_trace := init_trace s |} in
  match ctx_be_res s with
  | None =>
      (EINVAL,
       init_log s (Init_debug SSSDBG_OP_FAILURE
         "Resolver must be initialized in order to use the IPA dynamic DNS updates"))
  | Some _ =>
      let s := init_log s Call_be_add_online_cb in
      let ret := be_add_online_cb_ret in
      if negb (ret =? EOK) then
        (ret, init_log s (Init_debug SSSDBG_CRIT_FAILURE
                            "Could not set up online callback"))
      else (EOK, s)
  end.

Definition is_add_online_cb (e : init_event) : bool :=
  match e with Call_be_add_online_cb => true | _ => false end.

(** ** The event loop with completions

    [fire] with, in addition, the completion of a connection attempt:
    the continuation [ipa_dyndns_timer_connected] runs for an outstanding
    attempt, with the result the connection cache reports. *)
Inductive loop_event :=
| Trigger (t : trigger)
| Connected (ret : errno_t) (dp_error : Z) (o : send_oracle).

Definition step (s : system) (e : loop_event) : system :=
  match e with
  | Trigger t => fire s t
  | Connected ret dp_error o =>
      match attempts s with
      | O => s                  (* no attempt: no continuation to run *)
      | S n =>
          let w' := exec (ipa_dyndns_timer_connected ret dp_error o)
                         (sys_world s) in
          {| sys_world := w';
             attempts := n;
             timer_armed := timer_armed s || rearmed (sys_world s) w' |}
      end
  end.

Definition run (s : system) (es : list loop_event) : system :=
  fold_left step es s.

(** No timer callback of the run fires while a connection attempt is
    outstanding. *)
Fixpoint spaced (s : system) (es : list loop_event) : bool :=
  match es with
  | [] => true
  | e :: es' =>
      match e with
      | Trigger (Periodic _) => Nat.eqb (attempts s) 0
      | _ => true
      end && spaced (step s e) es'
  end.

(** The two readings of [time(NULL)] in one callback do not go back. *)
Definition clock_ok (o : send_oracle) : bool :=
  time_at_gate o <=? time_at_stamp o.

Definition clock_ok_event (e : loop_event) : bool :=
  match e with
  | Trigger (Online o) => clock_ok o
  | Trigger (Periodic _) => true
  | Connected _ _ o => clock_ok o
  end.

(** ** Observations for the further properties *)

(** The update operation is reached: a request is created, the gate
    passes, a domain is configured and the URI has the scheme. *)
Definition update_goes_out (o : send_oracle) (w : world) : bool :=
  tevent_req_create_ok o
  && negb (gate_denies (ctx w) (time_at_gate o))
  && match dp_opt_get_string (basic (ctx w)) IPA_DOMAIN with
     | Some _ => true
     | None => false
     end
  && strncmp_eq (uri (ctx w)) "ldap://" 7.

(** A message of [ipa_dyndns_nsupdate_done]. *)
Definition is_completion (e : event) : bool :=
  match e with
  | Debug SSSDBG_OP_FAILURE msg _ =>
      String.eqb msg "DNS update finished"
      || String.eqb msg "Updating DNS entry failed [%d]: %s"
  | _ => false
  end.

Definition completions (t : list obs) : nat := count_if is_completion t.

(** An entry that is a call of the update operation was made with the
    flag clear. *)
Definition update_seen_idle (x : obs) : Prop :=
  is_update (what x) = true -> seen_in_progress x = false.

(** The state is idle, or exactly one attempt is outstanding with the
    flag set. *)
Definition lease_ok (s : system) : Prop :=
  (attempts s = 0%nat /\ sys_flag s = false)
  \/ (attempts s = 1%nat /\ sys_flag s = true).

(** A run: an online cycle, a timer callback, an online callback during
    the attempt, and the completion of the attempt. *)
Definition ex_monotone_run : list loop_event :=
  [Trigger (Online (ex_send 1061)); Trigger (Periodic ex_timer);
   Trigger (Online (ex_send 1070)); Connected EOK DP_ERR_OK (ex_send 1125)].

(** ** The range of [time_t]

    [gate_denies] adds in [Z]; it is the gate of the C code as long as
    [last_refresh + 60] does not leave [time_t].  [last_refresh] is only
    ever set to a stamp reading, so it is enough that the stamp readings
    stay 60 seconds clear of the end of the range. *)
Definition stamp_in_range (o : send_oracle) : bool :=
  (0 <=? time_at_stamp o + 60) && (time_at_stamp o + 60 <=? TIME_T_MAX).

Definition range_ok_event (e : loop_event) : bool :=
  match e with
  | Trigger (Online o) => stamp_in_range o
  | Trigger (Periodic _) => true
  | Connected _ _ o => stamp_in_range o
  end.

(** A client whose realm and host name options point to the buffer of
    the domain. *)
Definition ex_shared : world :=
  {| ctx := {| basic := {| opt_string := fun _ => Some 1%N;
                           opt_number := fun _ => 0 |};
               dyndns_ctx := {| opts := ex_opts; last_refresh := 1000;
                                timer_in_progress := false |};
               uri := "ldap://ipa.example.test" |};
     heap := ex_heap; trace := [] |}.

(** * Properties *)

(** ** Tactics and general lemmas *)

Arguments advance : simpl never.
Arguments strncmp_eq : simpl never.
Arguments gate_denies : simpl never.
Arguments update_request : simpl never.

Ltac unfold_handlers :=
  unfold periodic_cycle, online_cycle, complete,
       ipa_dyndns_timer, ipa_dyndns_timer_connected, timer_fail,
       ipa_dyndns_update, ipa_dyndns_update_send, update_send_done,
       ipa_dyndns_sdap_update_done, ipa_dyndns_nsupdate_done,
       ipa_dyndns_update_recv,
       tevent_trigger, tevent_req_done, tevent_req_error, tevent_req_notify,
       run_callback, tevent_req_post, tevent_req_set_callback, set_req_state,
       tevent_req_create,
       be_nsupdate_timer_schedule, DEBUG, emit,
       set_timer_in_progress, set_last_refresh, with_dyndns, write_buf,
       get_ctx, get_heap, dp_opt_get_string, dp_opt_get_int,
       bind, mret, exec, eval in *.

Lemma skipn_length_app {A} (l r : list A) : skipn (List.length l) (l ++ r) = r.
Proof. induction l; simpl; auto. Qed.

Lemma count_if_app f (a b : list obs) :
  count_if f (a ++ b) = (count_if f a + count_if f b)%nat.
Proof.
  unfold count_if. rewrite filter_app, length_app. reflexivity.
Qed.

Lemma count_if_snoc f (l : list obs) (x : obs) :
  count_if f (l ++ [x]) =
  (count_if f l + (if f (what x) then 1 else 0))%nat.
Proof.
  rewrite count_if_app. unfold count_if at 2. cbn.
  destruct (f (what x)); reflexivity.
Qed.

Lemma no_update_in (l : list obs) (x : obs) :
  updates l = 0%nat -> In x l -> is_update (what x) = false.
Proof.
  unfold updates, count_if. intros H Hin.
  destruct (is_update (what x)) eqn:E; [|reflexivity].
  assert (Hf : In x (filter (fun y => is_update (what y)) l))
    by (apply filter_In; split; assumption).
  destruct (filter (fun y => is_update (what y)) l);
    [contradiction | discriminate].
Qed.

(** Once the trace is [trace w ++ new], [new] is what was added. *)
Lemma added_of_app {A} (m : M A) (w : world) (new : list obs) :
  trace (exec m w) = trace w ++ new -> added m w = new.
Proof. unfold added. intros ->. apply skipn_length_app. Qed.

(** ** The branches of [ipa_dyndns_update_send] *)

Section UpdateSend.
Variables (o : send_oracle) (w : world).

Lemma update_send_no_request :
  tevent_req_create_ok o = false ->
  ipa_dyndns_update_send o w = (None, logged w performing).
Proof. intros H. unfold_handlers. rewrite H. reflexivity. Qed.

Hypothesis Hreq : tevent_req_create_ok o = true.

Lemma update_send_denied :
  gate_denies (ctx w) (time_at_gate o) = true ->
  ipa_dyndns_update_send o w =
    (Some (req_in TEVENT_REQ_DONE true),
     logged (logged w performing) not_scheduling).
Proof.
  intros H. unfold_handlers. rewrite Hreq. cbn. rewrite H. reflexivity.
Qed.

Hypothesis Hgate : gate_denies (ctx w) (time_at_gate o) = false.

Lemma update_send_no_domain :
  dp_opt_get_string (basic (ctx w)) IPA_DOMAIN = None ->
  ipa_dyndns_update_send o w =
    (Some (req_in (TEVENT_REQ_USER_ERROR EIO) true),
     {| ctx := stamp (time_at_stamp o) (ctx w); heap := heap w;
        trace := trace w ++ [observe (ctx w) performing] |}).
Proof.
  intros H. unfold_handlers. rewrite Hreq. cbn. rewrite Hgate. cbn.
  rewrite H. reflexivity.
Qed.

Variable dns_zone : ptr.
Hypothesis Hdom : dp_opt_get_string (basic (ctx w)) IPA_DOMAIN = Some dns_zone.

Lemma update_send_bad_uri :
  strncmp_eq (uri (ctx w)) "ldap://" 7 = false ->
  ipa_dyndns_update_send o w =
    (Some (req_in (TEVENT_REQ_USER_ERROR EIO) true),
     logged {| ctx := stamp (time_at_stamp o) (ctx w);
               heap := lowered dns_zone (heap w);
               trace := trace w ++ [observe (ctx w) performing] |}
            unexpected_uri).
Proof.
  intros H. unfold_handlers. rewrite Hreq. cbn. rewrite Hgate. cbn.
  rewrite Hdom. cbn. rewrite H. reflexivity.
Qed.

Hypothesis Huri : strncmp_eq (uri (ctx w)) "ldap://" 7 = true.

Lemma update_send_no_subreq :
  sdap_dyndns_update_send_ok o = false ->
  ipa_dyndns_update_send o w =
    (Some (req_in (TEVENT_REQ_USER_ERROR EIO) true),
     logged (logged {| ctx := stamp (time_at_stamp o) (ctx w);
                       heap := lowered dns_zone (heap w);
                       trace := trace w ++ [observe (ctx w) performing] |}
               (Call_sdap_dyndns_update_send
                  (update_request (ctx w) (lowered dns_zone (heap w)) dns_zone)))
            no_subrequest).
Proof.
  intros H. unfold_handlers. rewrite Hreq. cbn. rewrite Hgate. cbn.
  rewrite Hdom. cbn. rewrite Huri. cbn. rewrite H. reflexivity.
Qed.

Lemma update_send_started :
  sdap_dyndns_update_send_ok o = true ->
  ipa_dyndns_update_send o w =
    (Some (req_in TEVENT_REQ_IN_PROGRESS false),
     logged {| ctx := stamp (time_at_stamp o) (ctx w);
               heap := lowered dns_zone (heap w);
               trace := trace w ++ [observe (ctx w) performing] |}
            (Call_sdap_dyndns_update_send
               (update_request (ctx w) (lowered dns_zone (heap w)) dns_zone))).
Proof.
  intros H. unfold_handlers. rewrite Hreq. cbn. rewrite Hgate. cbn.
  rewrite Hdom. cbn. rewrite Huri. cbn. rewrite H. reflexivity.
Qed.

End UpdateSend.

(** ** The callbacks in terms of [ipa_dyndns_update_send] *)

Lemma ipa_dyndns_update_eq (o : send_oracle) (w : world) :
  ipa_dyndns_update o w =
    match ipa_dyndns_update_send o (scheduled w) with
    | (None, w') => (None, logged w' could_not_update)
    | (Some r, w') =>
        (Some (tevent_req_set_callback r CB_ipa_dyndns_nsupdate_done), w')
    end.
Proof.
  unfold ipa_dyndns_update, be_nsupdate_timer_schedule, emit, bind, mret,
    DEBUG, scheduled.
  destruct (ipa_dyndns_update_send o _) as [[r|] w']; reflexivity.
Qed.

(** Case analysis on the path [ipa_dyndns_update_send o] takes from [w]:
    the goal is rewritten with the lemma of each branch. *)
Ltac send_cases o w :=
  let Hreq := fresh "Hreq" in
  let Hgate := fresh "Hgate" in
  let Hdom := fresh "Hdom" in
  let Huri := fresh "Huri" in
  let Hsub := fresh "Hsub" in
  let z := fresh "dns_zone" in
  destruct (tevent_req_create_ok o) eqn:Hreq;
  [ destruct (gate_denies (ctx w) (time_at_gate o)) eqn:Hgate;
    [ rewrite (update_send_denied o w Hreq Hgate)
    | destruct (dp_opt_get_string (basic (ctx w)) IPA_DOMAIN) as [z|] eqn:Hdom;
      [ destruct (strncmp_eq (uri (ctx w)) "ldap://" 7) eqn:Huri;
        [ destruct (sdap_dyndns_update_send_ok o) eqn:Hsub;
          [ rewrite (update_send_started o w Hreq Hgate z Hdom Huri Hsub)
          | rewrite (update_send_no_subreq o w Hreq Hgate z Hdom Huri Hsub) ]
        | rewrite (update_send_bad_uri o w Hreq Hgate z Hdom Huri) ]
      | rewrite (update_send_no_domain o w Hreq Hgate Hdom) ] ]
  | rewrite (update_send_no_request o w Hreq) ].

(** Worlds written with [logged] and [scheduled] as explicit records. *)
Ltac explicit_worlds :=
  unfold logged, scheduled, with_flag, req_in, tevent_req_set_callback;
  cbn; rewrite <- ?app_assoc; cbn.

(** Brings [added m w] to the list of the new entries, once [m w] has
    been rewritten to an explicit world. *)
Ltac new_entries :=
  cbn; rewrite <- ?app_assoc; rewrite ?skipn_length_app; cbn.

Lemma timer_connected_eq (ret dp_error : Z) (o : send_oracle) (w : world) :
  ipa_dyndns_timer_connected ret dp_error o w =
    if ret =? EOK then
      ipa_dyndns_update o (scheduled (with_flag false w))
    else if dp_error =? DP_ERR_OFFLINE then
      (None, logged (with_flag false w) skipped_offline)
    else
      (None, scheduled (logged (with_flag false w) (connect_failed ret))).
Proof.
  unfold ipa_dyndns_timer_connected, set_timer_in_progress, with_dyndns,
    be_nsupdate_timer_schedule, DEBUG, emit, bind, mret.
  destruct (ret =? EOK); cbn; [reflexivity|].
  destruct (dp_error =? DP_ERR_OFFLINE); reflexivity.
Qed.

Lemma timer_eq (o : timer_oracle) (w : world) :
  ipa_dyndns_timer o w =
    if talloc_zero_ok o then
      if sdap_id_op_create_ok o then
        match sdap_id_op_connect_send_err o with
        | None =>
            (TIMER_CONNECTING,
             logged (with_flag true w) Call_sdap_id_op_connect_send)
        | Some ret =>
            (TIMER_FAILED,
             scheduled (with_flag false
               (logged (logged (with_flag true w) Call_sdap_id_op_connect_send)
                  (Debug SSSDBG_OP_FAILURE
                     "sdap_id_op_connect_send failed: [%d](%s)" [ret]))))
        end
      else
        (TIMER_FAILED,
         scheduled (with_flag false
           (logged (with_flag true w)
              (Debug SSSDBG_OP_FAILURE "sdap_id_op_create failed" []))))
    else
      (TIMER_NO_MEMORY,
       logged w (Debug SSSDBG_CRIT_FAILURE "Out of memory" [])).
Proof.
  unfold ipa_dyndns_timer, timer_fail, set_timer_in_progress, with_dyndns,
    be_nsupdate_timer_schedule, DEBUG, emit, bind, mret.
  destruct (talloc_zero_ok o); cbn; [|reflexivity].
  destruct (sdap_id_op_create_ok o); cbn; [|reflexivity].
  destruct (sdap_id_op_connect_send_err o); reflexivity.
Qed.

(** ** C10 *)

(** C10: every call of [ipa_dyndns_update] re-arms the periodic timer
    exactly once, and that call is the first thing it does, made in the
    state of entry, before [ipa_dyndns_update_send] is entered and its gate
    consulted: also when the gate then denies, and when no request can be
    created. *)
Theorem ipa_dyndns_update_schedules_once_at_entry :
  forall (o : send_oracle) (w : world),
    exists rest,
      added (ipa_dyndns_update o) w =
        observe (ctx w) Call_be_nsupdate_timer_schedule
        :: observe (ctx w) performing :: rest
      /\ rearms rest = 0%nat
      /\ rearms (added (ipa_dyndns_update o) w) = 1%nat.
Proof.
  intros o w. unfold added, exec. rewrite ipa_dyndns_update_eq.
  send_cases o (scheduled w); new_entries;
    eexists; (split; [reflexivity | split; reflexivity]).
Qed.

(** ** C9 *)

(** C9: in the continuation of the connection attempt the flag
    [timer_in_progress] is cleared before anything else happens: every
    call the continuation makes, whatever the connection result (the
    re-scheduling of the timer, the debug messages, the whole of
    [ipa_dyndns_update] down to the nsupdate call), is made with the flag
    already false, and the flag is false when the continuation returns;
    the scheduler is called twice on success, once on a failure other
    than offline and not at all on offline.  The same order holds on the
    paths of [ipa_dyndns_timer] that leave through [fail:], which are
    those where [sdap_id_op_create] or [sdap_id_op_connect_send] returns
    NULL: everything before was done with the flag set, then the flag is
    cleared, then the scheduler is called, once and last, seeing the flag
    false, and the flag is false on return. *)
Theorem timer_in_progress_cleared_first :
  (forall ret dp_error o w,
      let new := added (ipa_dyndns_timer_connected ret dp_error o) w in
      Forall (fun x => seen_in_progress x = false) new
      /\ timer_in_progress
           (dyndns_ctx (ctx (exec (ipa_dyndns_timer_connected ret dp_error o) w)))
         = false
      /\ rearms new = (if ret =? EOK then 2%nat
                       else if dp_error =? DP_ERR_OFFLINE then 0%nat
                            else 1%nat))
  /\ (forall o w,
      let new := added (ipa_dyndns_timer o) w in
      Forall (fun x => is_schedule (what x) = true ->
                       seen_in_progress x = false) new
      /\ (talloc_zero_ok o = true ->
          sdap_id_op_create_ok o = false
          \/ sdap_id_op_connect_send_err o <> None ->
          eval (ipa_dyndns_timer o) w = TIMER_FAILED
          /\ timer_in_progress
               (dyndns_ctx (ctx (exec (ipa_dyndns_timer o) w))) = false
          /\ exists pre x,
               new = pre ++ [x]
               /\ what x = Call_be_nsupdate_timer_schedule
               /\ seen_in_progress x = false
               /\ rearms pre = 0%nat
               /\ Forall (fun y => seen_in_progress y = true) pre)).
Proof.
  split.
  - intros ret dp_error o w. cbv zeta. unfold added, exec.
    rewrite timer_connected_eq.
    destruct (ret =? EOK).
    + rewrite ipa_dyndns_update_eq.
      send_cases o (scheduled (scheduled (with_flag false w)));
        new_entries;
        (split; [repeat constructor | split; reflexivity]).
    + destruct (dp_error =? DP_ERR_OFFLINE);
        new_entries;
        (split; [repeat constructor | split; reflexivity]).
  - intros o w. cbv zeta. unfold added, eval, exec. rewrite timer_eq.
    destruct (talloc_zero_ok o); [destruct (sdap_id_op_create_ok o);
      [destruct (sdap_id_op_connect_send_err o) as [e|]|]|];
      new_entries.
    + split; [repeat constructor; cbn; discriminate|].
      intros _ _. split; [reflexivity|]. split; [reflexivity|].
      eexists [_; _]; eexists.
      split; [reflexivity|]. split; [reflexivity|]. split; [reflexivity|].
      split; [reflexivity | repeat constructor].
    + split; [repeat constructor; cbn; discriminate|].
      intros _ [H | H]; [discriminate H | contradiction H; reflexivity].
    + split; [repeat constructor; cbn; discriminate|].
      intros _ _. split; [reflexivity|]. split; [reflexivity|].
      eexists [_]; eexists.
      split; [reflexivity|]. split; [reflexivity|]. split; [reflexivity|].
      split; [reflexivity | repeat constructor].
    + split; [repeat constructor; cbn; discriminate|].
      intros H. discriminate H.
Qed.

Lemma timer_in_progress_cleared_first_witness :
  let o := ex_timer_fails in
  let w := ex_world 1000 false "ldap://ipa.example.test" in
  eval (ipa_dyndns_timer o) w = TIMER_FAILED
  /\ timer_in_progress (dyndns_ctx (ctx (exec (ipa_dyndns_timer o) w))) = false
  /\ exists pre x,
       added (ipa_dyndns_timer o) w = pre ++ [x]
       /\ what x = Call_be_nsupdate_timer_schedule
       /\ seen_in_progress x = false
       /\ rearms pre = 0%nat
       /\ Forall (fun y => seen_in_progress y = true) pre.
Proof.
  destruct (proj2 timer_in_progress_cleared_first ex_timer_fails
              (ex_world 1000 false "ldap://ipa.example.test")) as [_ H].
  apply H; [reflexivity | left; reflexivity].
Defined.

(** ** C3 *)

(** C3: when the connection attempt of a periodic cycle ends with an
    error and [dp_error == DP_ERR_OFFLINE], the continuation only clears
    the flag and logs one message at SSSDBG_MINOR_FAILURE: no request is
    created (so nothing is ever completed with an error), the update
    operation is not called, and [last_refresh] and the buffers are what
    they were. *)
Theorem offline_result_is_soft_skip :
  forall (ret : errno_t) (o : send_oracle) (w : world),
    ret <> EOK ->
    let m := ipa_dyndns_timer_connected ret DP_ERR_OFFLINE o in
    eval m w = None
    /\ added m w = [observe (flagged false (ctx w)) skipped_offline]
    /\ updates (added m w) = 0%nat
    /\ last_refresh (dyndns_ctx (ctx (exec m w)))
       = last_refresh (dyndns_ctx (ctx w))
    /\ heap (exec m w) = heap w.
Proof.
  intros ret o w Hret m. subst m. unfold added, eval, exec.
  rewrite timer_connected_eq.
  destruct (Z.eqb_spec ret EOK) as [E|_]; [contradiction|].
  new_entries. repeat split; reflexivity.
Qed.

Lemma offline_result_is_soft_skip_witness :
  let m := ipa_dyndns_timer_connected EIO DP_ERR_OFFLINE (ex_send 1061) in
  let w := ex_world 1000 false "ldap://ipa.example.test" in
  eval m w = None
  /\ added m w = [observe (flagged false (ctx w)) skipped_offline]
  /\ updates (added m w) = 0%nat
  /\ last_refresh (dyndns_ctx (ctx (exec m w)))
     = last_refresh (dyndns_ctx (ctx w))
  /\ heap (exec m w) = heap w.
Proof.
  apply (offline_result_is_soft_skip EIO (ex_send 1061)
           (ex_world 1000 false "ldap://ipa.example.test")).
  unfold EIO, EOK. lia.
Defined.

(** ** Completion and sequencing *)

(** Completing a request runs [ipa_dyndns_nsupdate_done] once, last, on
    the error [cycle_errno] says; before it, only the failure message of
    [ipa_dyndns_sdap_update_done] can be logged.  The context and the
    buffers are not touched. *)
Lemma complete_eq (upd_ret : errno_t) (r : tevent_req) (w : world) :
  req_fn r = Some CB_ipa_dyndns_nsupdate_done ->
  exists pre,
    complete upd_ret (Some r) w =
      (tt, {| ctx := ctx w; heap := heap w;
              trace := trace w ++ pre ++
                [observe (ctx w) (nsupdate_done_log (cycle_errno r upd_ret))] |})
    /\ (pre = []
        \/ req_posted r = false
           /\ pre = [observe (ctx w) (sdap_update_failed upd_ret)]).
Proof.
  intros Hfn. destruct r as [st posted fn]. cbn in Hfn. subst fn.
  unfold complete, exec, tevent_trigger, ipa_dyndns_sdap_update_done,
    tevent_req_error, tevent_req_done, tevent_req_notify, run_callback,
    set_req_state, ipa_dyndns_nsupdate_done, ipa_dyndns_update_recv,
    cycle_errno, nsupdate_done_log, DEBUG, emit, bind, mret.
  cbn.
  destruct posted; cbn.
  - exists []. split; [|left; reflexivity].
    destruct st as [ | |e]; cbn; try destruct (e =? EOK); reflexivity.
  - destruct (upd_ret =? EOK) eqn:E; cbn.
    + exists []. split; [reflexivity | left; reflexivity].
    + change (upd_ret =? 0) with (upd_ret =? EOK). rewrite E. cbn.
      rewrite <- app_assoc.
      eexists. split; [reflexivity | right; split; reflexivity].
Qed.

Lemma nsupdate_done_log_counts (ret : errno_t) :
  is_schedule (nsupdate_done_log ret) = false
  /\ is_update (nsupdate_done_log ret) = false.
Proof. unfold nsupdate_done_log. destruct (ret =? EOK); split; reflexivity. Qed.

(** What [complete] adds never re-arms the timer nor calls the update
    operation. *)
Lemma complete_adds (upd_ret : errno_t) (r : tevent_req) (w : world) :
  req_fn r = Some CB_ipa_dyndns_nsupdate_done ->
  exists new, exec (complete upd_ret (Some r)) w =
                {| ctx := ctx w; heap := heap w; trace := trace w ++ new |}
              /\ rearms new = 0%nat /\ updates new = 0%nat.
Proof.
  intros Hfn. destruct (complete_eq upd_ret r w Hfn) as (pre & E & Hpre).
  unfold exec. rewrite E. eexists. split; [reflexivity|].
  destruct (nsupdate_done_log_counts (cycle_errno r upd_ret)) as [Hs Hu].
  unfold rearms, updates, count_if.
  destruct Hpre as [-> | [_ ->]]; cbn; rewrite Hs, Hu; split; reflexivity.
Qed.

(** What a sequence adds is what its two parts add. *)
Lemma trace_bind {A B} (m : M A) (k : A -> M B) (w : world) new1 new2 :
  trace (exec m w) = trace w ++ new1 ->
  trace (exec (k (eval m w)) (exec m w)) = trace (exec m w) ++ new2 ->
  trace (exec (bind m k) w) = trace w ++ new1 ++ new2.
Proof.
  unfold exec, eval, bind. destruct (m w) as [a w1]. cbn.
  intros H1 H2. rewrite H2, H1, app_assoc. reflexivity.
Qed.

Lemma update_adds (o : send_oracle) (w : world) :
  exists new,
    trace (exec (ipa_dyndns_update o) w) = trace w ++ new
    /\ rearms new = 1%nat
    /\ (forall r, eval (ipa_dyndns_update o) w = Some r ->
                  req_fn r = Some CB_ipa_dyndns_nsupdate_done).
Proof.
  unfold exec, eval. rewrite ipa_dyndns_update_eq.
  send_cases o (scheduled w); cbn; rewrite <- ?app_assoc;
    eexists; (split; [reflexivity | split; [reflexivity|]]);
    intros r Hr; inversion Hr; reflexivity.
Qed.

Lemma complete_option_adds (upd_ret : errno_t) (r : option tevent_req) w :
  (forall q, r = Some q -> req_fn q = Some CB_ipa_dyndns_nsupdate_done) ->
  exists new, trace (exec (complete upd_ret r) w) = trace w ++ new
              /\ rearms new = 0%nat /\ updates new = 0%nat.
Proof.
  intros H. destruct r as [q|].
  - destruct (complete_adds upd_ret q w (H q eq_refl)) as (new & E & R).
    exists new. rewrite E. split; [reflexivity | exact R].
  - exists []. cbn. rewrite app_nil_r. repeat split; reflexivity.
Qed.

Lemma online_cycle_rearms (o : send_oracle) (upd_ret : errno_t) (w : world) :
  rearms (added (online_cycle o upd_ret) w) = 1%nat.
Proof.
  destruct (update_adds o w) as (n1 & H1 & R1 & F1).
  destruct (complete_option_adds upd_ret (eval (ipa_dyndns_update o) w)
              (exec (ipa_dyndns_update o) w) F1) as (n2 & H2 & R2 & _).
  unfold online_cycle.
  rewrite (added_of_app _ _ (n1 ++ n2));
    [|exact (trace_bind _ _ _ _ _ H1 H2)].
  unfold rearms in *. rewrite count_if_app, R1, R2. reflexivity.
Qed.

Lemma connected_adds (ret dp_error : Z) (o : send_oracle) (w : world) :
  let m := ipa_dyndns_timer_connected ret dp_error o in
  exists new,
    trace (exec m w) = trace w ++ new
    /\ rearms new = (if ret =? EOK then 2%nat
                     else if dp_error =? DP_ERR_OFFLINE then 0%nat else 1%nat)
    /\ (forall r, eval m w = Some r ->
                  req_fn r = Some CB_ipa_dyndns_nsupdate_done).
Proof.
  cbn. unfold exec, eval. rewrite timer_connected_eq.
  destruct (ret =? EOK).
  - destruct (update_adds o (scheduled (with_flag false w)))
      as (n & H & R & F).
    exists (observe (flagged false (ctx w)) Call_be_nsupdate_timer_schedule
            :: n).
    unfold exec in H. rewrite H. cbn. rewrite <- app_assoc.
    split; [reflexivity|]. split; [|exact F].
    change (rearms ([observe (flagged false (ctx w))
                       Call_be_nsupdate_timer_schedule] ++ n) = 2%nat).
    unfold rearms in *. rewrite count_if_app, R. reflexivity.
  - destruct (dp_error =? DP_ERR_OFFLINE); cbn; rewrite <- ?app_assoc;
      eexists; (split; [reflexivity | split; [reflexivity|]]);
      intros r Hr; discriminate.
Qed.

(** ** C1 *)

(** The claim of C1 fails on the offline path: a periodic cycle whose
    connection attempt ends offline does not call the scheduler at all. *)
Lemma offline_cycle_does_not_rearm :
  let c := ex_cycle EIO DP_ERR_OFFLINE 1061 in
  let w := ex_world 1000 false "ldap://ipa.example.test" in
  rearms (added (periodic_cycle c) w) = 0%nat
  /\ rearms (added (periodic_cycle c) w) <> 1%nat.
Proof. vm_compute. split; [reflexivity | discriminate]. Qed.

(** C1, amended: how often a cycle calls the scheduler of the periodic
    timer depends on how the cycle was started and on the connection
    step only.  A cycle started by the online callback calls it exactly
    once.  A cycle started by the periodic timer calls it once when the
    connection attempt cannot be started or ends with an error other than
    offline, not at all when the attempt ends offline or the timer
    context cannot be allocated, and twice when the connection succeeds
    (in the continuation and again at the entry of [ipa_dyndns_update]).
    The gate and the outcome of the update never change the count. *)
Theorem rearms_per_cycle :
  (forall (o : send_oracle) (upd_ret : errno_t) (w : world),
      rearms (added (online_cycle o upd_ret) w) = 1%nat)
  /\ (forall (c : cycle_oracle) (w : world),
      rearms (added (periodic_cycle c) w) = periodic_rearms c).
Proof.
  split; [exact online_cycle_rearms|].
  intros c w. unfold periodic_cycle, periodic_rearms.
  unfold added, exec at 1, bind. rewrite timer_eq.
  destruct (talloc_zero_ok (at_timer c)); cbn [negb];
    [|new_entries; reflexivity].
  destruct (sdap_id_op_create_ok (at_timer c)); cbn [negb];
    [|new_entries; reflexivity].
  destruct (sdap_id_op_connect_send_err (at_timer c));
    [new_entries; reflexivity|].
  set (w1 := logged (with_flag true w) Call_sdap_id_op_connect_send).
  destruct (connected_adds (conn_ret c) (conn_dp_error c) (at_send c) w1)
    as (n1 & H1 & R1 & F1).
  destruct (complete_option_adds (update_ret c) _
              (exec (ipa_dyndns_timer_connected (conn_ret c) (conn_dp_error c)
                                                (at_send c)) w1) F1)
    as (n2 & H2 & R2 & _).
  pose proof (trace_bind _ _ _ _ _ H1 H2) as H. unfold exec in H at 1.
  unfold bind in H. cbv beta in H.
  rewrite H. subst w1. cbn [trace logged with_flag].
  rewrite <- app_assoc, skipn_length_app.
  change (rearms ([observe (flagged true (ctx w)) Call_sdap_id_op_connect_send]
                  ++ n1 ++ n2) = 
          (if conn_ret c =? EOK then 2%nat
           else if conn_dp_error c =? DP_ERR_OFFLINE then 0%nat else 1%nat)).
  unfold rearms in *. rewrite !count_if_app, R1, R2. cbn. lia.
Qed.

(** ** The gate *)

Lemma gate_denies_iff (c : ipa_options) (now : time_t) :
  gate_denies c now = true <->
  timer_in_progress (dyndns_ctx c) = true
  \/ now - last_refresh (dyndns_ctx c) < 60.
Proof.
  unfold gate_denies. rewrite orb_true_iff, Z.gtb_lt.
  split; intros [H|H];
    [right; lia | left; exact H | right; exact H | left; lia].
Qed.

Lemma gate_passes_iff (c : ipa_options) (now : time_t) :
  gate_denies c now = false <->
  timer_in_progress (dyndns_ctx c) = false
  /\ 60 <= now - last_refresh (dyndns_ctx c).
Proof.
  unfold gate_denies. rewrite orb_false_iff, Z.gtb_ltb, Z.ltb_ge.
  split; intros [H1 H2]; split; auto; lia.
Qed.

(** An online cycle that the gate denies, from entry to completion. *)
Lemma online_cycle_denied (o : send_oracle) (upd_ret : errno_t) (w : world) :
  tevent_req_create_ok o = true ->
  gate_denies (ctx w) (time_at_gate o) = true ->
  ipa_dyndns_update o w =
    (Some {| req_state := TEVENT_REQ_DONE; req_posted := true;
             req_fn := Some CB_ipa_dyndns_nsupdate_done |},
     logged (logged (scheduled w) performing) not_scheduling)
  /\ online_cycle o upd_ret w =
     (tt, logged (logged (logged (scheduled w) performing) not_scheduling)
                 update_finished).
Proof.
  intros Hreq Hgate.
  assert (E : ipa_dyndns_update o w =
    (Some {| req_state := TEVENT_REQ_DONE; req_posted := true;
             req_fn := Some CB_ipa_dyndns_nsupdate_done |},
     logged (logged (scheduled w) performing) not_scheduling)).
  { rewrite ipa_dyndns_update_eq.
    rewrite (update_send_denied o (scheduled w) Hreq Hgate). reflexivity. }
  split; [exact E|].
  unfold online_cycle, bind. rewrite E. reflexivity.
Qed.

(** ** C6 *)

(** C6: when the gate denies an attempt, because [timer_in_progress] is
    set or because fewer than 60 seconds have passed since [last_refresh],
    the request is completed with [tevent_req_done] and posted:
    [ipa_dyndns_update_recv] returns EOK and the cycle ends with the
    message of a finished update.  The context (with [last_refresh]) and
    the buffers are unchanged and the trace of the cycle holds no call of
    the update operation nor of the connection cache. *)
Theorem gate_denial_is_noop_success :
  forall (o : send_oracle) (upd_ret : errno_t) (w : world),
    tevent_req_create_ok o = true ->
    time_t_ok (last_refresh (dyndns_ctx (ctx w)) + 60) ->
    timer_in_progress (dyndns_ctx (ctx w)) = true
    \/ time_at_gate o - last_refresh (dyndns_ctx (ctx w)) < 60 ->
    (exists r, eval (ipa_dyndns_update o) w = Some r
               /\ req_state r = TEVENT_REQ_DONE
               /\ req_posted r = true
               /\ req_fn r = Some CB_ipa_dyndns_nsupdate_done
               /\ ipa_dyndns_update_recv r = EOK)
    /\ added (online_cycle o upd_ret) w =
         [observe (ctx w) Call_be_nsupdate_timer_schedule;
          observe (ctx w) performing;
          observe (ctx w) not_scheduling;
          observe (ctx w) update_finished]
    /\ updates (added (online_cycle o upd_ret) w) = 0%nat
    /\ ctx (exec (online_cycle o upd_ret) w) = ctx w
    /\ heap (exec (online_cycle o upd_ret) w) = heap w.
Proof.
  intros o upd_ret w Hreq _ Hden.
  apply gate_denies_iff in Hden.
  destruct (online_cycle_denied o upd_ret w Hreq Hden) as [Eu Ec].
  split.
  - unfold eval. rewrite Eu. eexists. repeat split; reflexivity.
  - unfold added, exec. rewrite Ec. new_entries. repeat split; reflexivity.
Qed.

Lemma gate_denial_is_noop_success_witness :
  let o := ex_send 1030 in
  let w := ex_world 1000 false "ldap://ipa.example.test" in
  (exists r, eval (ipa_dyndns_update o) w = Some r
             /\ req_state r = TEVENT_REQ_DONE
             /\ req_posted r = true
             /\ req_fn r = Some CB_ipa_dyndns_nsupdate_done
             /\ ipa_dyndns_update_recv r = EOK)
  /\ added (online_cycle o EOK) w =
       [observe (ctx w) Call_be_nsupdate_timer_schedule;
        observe (ctx w) performing;
        observe (ctx w) not_scheduling;
        observe (ctx w) update_finished]
  /\ updates (added (online_cycle o EOK) w) = 0%nat
  /\ ctx (exec (online_cycle o EOK) w) = ctx w
  /\ heap (exec (online_cycle o EOK) w) = heap w.
Proof.
  apply (gate_denial_is_noop_success (ex_send 1030) EOK
           (ex_world 1000 false "ldap://ipa.example.test")).
  - reflexivity.
  - unfold time_t_ok, TIME_T_MAX; simpl; lia.
  - right; simpl; lia.
Defined.

(** ** An online cycle that passes the gate *)

Section GatePassed.
Variables (o : send_oracle) (upd_ret : errno_t) (w : world).
Hypothesis Hreq : tevent_req_create_ok o = true.
Hypothesis Hgate : gate_denies (ctx w) (time_at_gate o) = false.

Lemma update_no_domain :
  dp_opt_get_string (basic (ctx w)) IPA_DOMAIN = None ->
  ipa_dyndns_update o w =
    (Some {| req_state := TEVENT_REQ_USER_ERROR EIO; req_posted := true;
             req_fn := Some CB_ipa_dyndns_nsupdate_done |},
     {| ctx := stamp (time_at_stamp o) (ctx w); heap := heap w;
        trace := trace w ++ [observe (ctx w) Call_be_nsupdate_timer_schedule;
                             observe (ctx w) performing] |}).
Proof.
  intros Hdom. rewrite ipa_dyndns_update_eq.
  rewrite (update_send_no_domain o (scheduled w) Hreq Hgate Hdom).
  explicit_worlds. reflexivity.
Qed.

Variable dns_zone : ptr.
Hypothesis Hdom : dp_opt_get_string (basic (ctx w)) IPA_DOMAIN = Some dns_zone.

Lemma update_bad_uri :
  strncmp_eq (uri (ctx w)) "ldap://" 7 = false ->
  ipa_dyndns_update o w =
    (Some {| req_state := TEVENT_REQ_USER_ERROR EIO; req_posted := true;
             req_fn := Some CB_ipa_dyndns_nsupdate_done |},
     {| ctx := stamp (time_at_stamp o) (ctx w);
        heap := lowered dns_zone (heap w);
        trace := trace w ++
          [observe (ctx w) Call_be_nsupdate_timer_schedule;
           observe (ctx w) performing;
           observe (stamp (time_at_stamp o) (ctx w)) unexpected_uri] |}).
Proof.
  intros Huri. rewrite ipa_dyndns_update_eq.
  rewrite (update_send_bad_uri o (scheduled w) Hreq Hgate dns_zone Hdom Huri).
  explicit_worlds. reflexivity.
Qed.

Hypothesis Huri : strncmp_eq (uri (ctx w)) "ldap://" 7 = true.

Lemma update_called :
  exists r rest,
    ipa_dyndns_update o w =
      (Some r,
       {| ctx := stamp (time_at_stamp o) (ctx w);
          heap := lowered dns_zone (heap w);
          trace := trace w ++
            observe (ctx w) Call_be_nsupdate_timer_schedule
            :: observe (ctx w) performing
            :: the_update_call o w dns_zone :: rest |})
    /\ req_fn r = Some CB_ipa_dyndns_nsupdate_done
    /\ updates rest = 0%nat /\ rearms rest = 0%nat.
Proof.
  rewrite ipa_dyndns_update_eq.
  destruct (sdap_dyndns_update_send_ok o) eqn:Hsub.
  - rewrite (update_send_started o (scheduled w) Hreq Hgate dns_zone Hdom
               Huri Hsub).
    eexists; exists []. explicit_worlds.
    repeat split; reflexivity.
  - rewrite (update_send_no_subreq o (scheduled w) Hreq Hgate dns_zone Hdom
               Huri Hsub).
    eexists; eexists. explicit_worlds.
    repeat split; reflexivity.
Qed.

End GatePassed.

Lemma online_cycle_eq (o : send_oracle) (upd_ret : errno_t) (w w' : world)
      (r : tevent_req) :
  ipa_dyndns_update o w = (Some r, w') ->
  req_fn r = Some CB_ipa_dyndns_nsupdate_done ->
  exists pre,
    online_cycle o upd_ret w =
      (tt, {| ctx := ctx w'; heap := heap w';
              trace := trace w' ++ pre ++
                [observe (ctx w') (nsupdate_done_log (cycle_errno r upd_ret))] |})
    /\ (pre = []
        \/ req_posted r = false
           /\ pre = [observe (ctx w') (sdap_update_failed upd_ret)]).
Proof.
  intros E Hfn. unfold online_cycle, bind. rewrite E.
  exact (complete_eq upd_ret r w' Hfn).
Qed.

Lemma online_cycle_update_called (o : send_oracle) (upd_ret : errno_t)
      (w : world) (dns_zone : ptr) :
  tevent_req_create_ok o = true ->
  gate_denies (ctx w) (time_at_gate o) = false ->
  dp_opt_get_string (basic (ctx w)) IPA_DOMAIN = Some dns_zone ->
  strncmp_eq (uri (ctx w)) "ldap://" 7 = true ->
  exists tail,
    online_cycle o upd_ret w =
      (tt, {| ctx := stamp (time_at_stamp o) (ctx w);
              heap := lowered dns_zone (heap w);
              trace := trace w ++
                observe (ctx w) Call_be_nsupdate_timer_schedule
                :: observe (ctx w) performing
                :: the_update_call o w dns_zone :: tail |})
    /\ updates tail = 0%nat /\ rearms tail = 0%nat.
Proof.
  intros Hreq Hgate Hdom Huri.
  destruct (update_called o w Hreq Hgate dns_zone Hdom Huri)
    as (r & rest & E & Hfn & Ur & Rr).
  destruct (online_cycle_eq o upd_ret w _ r E Hfn) as (pre & Ec & Hpre).
  rewrite Ec. cbn [ctx heap trace].
  exists (rest ++ pre ++
          [observe (stamp (time_at_stamp o) (ctx w))
                   (nsupdate_done_log (cycle_errno r upd_ret))]).
  split.
  - rewrite <- app_assoc. reflexivity.
  - destruct (nsupdate_done_log_counts (cycle_errno r upd_ret)) as [Hs Hu].
    unfold updates, rearms in *. rewrite !count_if_app, Ur, Rr.
    unfold count_if.
    destruct Hpre as [-> | [_ ->]]; cbn; rewrite Hs, Hu; split; reflexivity.
Qed.

(** ** The scheme of the server URI *)

(** Comparing the first [length p] bytes with a literal [p] is testing
    for the prefix [p]. *)
Lemma strncmp_eq_prefix (p : string) :
  no_nul p = true ->
  forall u, strncmp_eq u p (String.length p) = String.prefix p u.
Proof.
  induction p as [|y p IH]; intros Hp u.
  - destruct u; reflexivity.
  - cbn in Hp. apply andb_true_iff in Hp. destruct Hp as [Hy Hp].
    apply negb_true_iff in Hy.
    destruct u as [|x u]; cbn [String.length String.prefix].
    + unfold strncmp_eq. exact Hy.
    + change (strncmp_eq (String x u) (String y p) (S (String.length p)))
        with (if Ascii.eqb x y
              then (if is_nul x then true
                    else strncmp_eq u p (String.length p))
              else false).
      destruct (ascii_dec y x) as [<-|Hne].
      * rewrite Ascii.eqb_refl, Hy. apply IH. exact Hp.
      * destruct (Ascii.eqb_spec x y) as [E|_]; [congruence | reflexivity].
Qed.

Lemma strncmp_ldap (u : string) :
  strncmp_eq u "ldap://" 7 = has_ldap_scheme u.
Proof. exact (strncmp_eq_prefix "ldap://" eq_refl u). Qed.

(** ** Periodic cycles that connect *)

Lemma online_cycle_extends (o : send_oracle) (upd_ret : errno_t) (w : world) :
  trace (exec (online_cycle o upd_ret) w) =
  trace w ++ added (online_cycle o upd_ret) w.
Proof.
  destruct (update_adds o w) as (n1 & H1 & _ & F1).
  destruct (complete_option_adds upd_ret (eval (ipa_dyndns_update o) w)
              (exec (ipa_dyndns_update o) w) F1) as (n2 & H2 & _).
  pose proof (trace_bind _ _ _ _ _ H1 H2) as H.
  unfold online_cycle at 2.
  rewrite (added_of_app _ _ (n1 ++ n2)); exact H.
Qed.

(** A periodic cycle that connects is the online cycle run from
    [after_connect w]. *)
Lemma periodic_cycle_connected (c : cycle_oracle) (w : world) :
  connects c = true ->
  periodic_cycle c w =
    online_cycle (at_send c) (update_ret c) (after_connect w).
Proof.
  unfold connects. rewrite !andb_true_iff. intros [[[Ha Hc] Hs] Hr].
  unfold periodic_cycle, bind. rewrite timer_eq, Ha, Hc.
  destruct (sdap_id_op_connect_send_err (at_timer c)); [discriminate|].
  rewrite timer_connected_eq, Hr. reflexivity.
Qed.

Lemma periodic_cycle_added (c : cycle_oracle) (w : world) :
  connects c = true ->
  added (periodic_cycle c) w =
    observe (flagged true (ctx w)) Call_sdap_id_op_connect_send
    :: observe (flagged false (flagged true (ctx w)))
               Call_be_nsupdate_timer_schedule
    :: added (online_cycle (at_send c) (update_ret c)) (after_connect w).
Proof.
  intros Hc. apply added_of_app. unfold exec.
  rewrite (periodic_cycle_connected c w Hc).
  change (snd (online_cycle (at_send c) (update_ret c) (after_connect w)))
    with (exec (online_cycle (at_send c) (update_ret c)) (after_connect w)).
  rewrite online_cycle_extends. cbn. rewrite <- !app_assoc. reflexivity.
Qed.

(** ** C5 *)

(** The two scenarios for an online cycle. *)
Lemma cooldown_online (T : time_t) (o : send_oracle) (upd_ret : errno_t)
      (w : world) :
  last_refresh (dyndns_ctx (ctx w)) = T ->
  timer_in_progress (dyndns_ctx (ctx w)) = false ->
  tevent_req_create_ok o = true ->
  let new := added (online_cycle o upd_ret) w in
  let w' := exec (online_cycle o upd_ret) w in
  (time_at_gate o = T + 30 ->
     updates new = 0%nat
     /\ (exists pre, new = pre ++ [observe (ctx w') update_finished])
     /\ last_refresh (dyndns_ctx (ctx w')) = T)
  /\ (time_at_gate o = T + 61 -> time_at_stamp o = T + 61 ->
      forall dns_zone,
        dp_opt_get_string (basic (ctx w)) IPA_DOMAIN = Some dns_zone ->
        strncmp_eq (uri (ctx w)) "ldap://" 7 = true ->
        updates new = 1%nat
        /\ last_refresh (dyndns_ctx (ctx w')) = T + 61
        /\ (forall x, In x new -> is_update (what x) = true ->
                      seen_last_refresh x = T + 61)).
Proof.
  intros HT Hflag Hreq new w'. subst new w'. split.
  - intros Hnow.
    assert (Hden : gate_denies (ctx w) (time_at_gate o) = true).
    { apply gate_denies_iff. right. lia. }
    destruct (online_cycle_denied o upd_ret w Hreq Hden) as [_ Ec].
    unfold added, exec. rewrite Ec. new_entries.
    split; [reflexivity | split; [|exact HT]].
    eexists [_; _; _]. reflexivity.
  - intros Hnow Hstamp dns_zone Hdom Huri.
    assert (Hpass : gate_denies (ctx w) (time_at_gate o) = false).
    { apply gate_passes_iff. split; [exact Hflag | lia]. }
    destruct (online_cycle_update_called o upd_ret w dns_zone
                Hreq Hpass Hdom Huri) as (tail & Ec & Ut & _).
    unfold added, exec. rewrite Ec. cbn [snd ctx trace].
    rewrite skipn_length_app.
    split; [|split].
    + change (updates ([observe (ctx w) Call_be_nsupdate_timer_schedule;
                        observe (ctx w) performing;
                        the_update_call o w dns_zone] ++ tail) = 1%nat).
      unfold updates in *. rewrite count_if_app, Ut. reflexivity.
    + cbn. exact Hstamp.
    + intros x Hin Hx.
      destruct Hin as [<- | [<- | [<- | Hin]]]; try discriminate.
      * cbn. exact Hstamp.
      * rewrite (no_update_in tail x Ut Hin) in Hx. discriminate.
Qed.

(** C5: with [last_refresh = T], the flag clear and a request available,
    for a cycle of either kind (an online cycle, or a periodic cycle whose
    connection attempt succeeds).  At [T + 30] the gate denies: the cycle
    ends with the message of a finished update, without a call of the
    update operation, and [last_refresh] stays [T].  At [T + 61], for a
    client with a configured domain and a server URI of the expected
    scheme, the update operation is called exactly once, [last_refresh]
    is [T + 61] afterwards, and the call is made with [last_refresh]
    already set. *)
Theorem cooldown_scenarios :
  forall (T : time_t) (o : send_oracle) (upd_ret : errno_t) (w : world)
         (m : M unit),
    cycle_with o upd_ret m ->
    last_refresh (dyndns_ctx (ctx w)) = T ->
    timer_in_progress (dyndns_ctx (ctx w)) = false ->
    time_t_ok T -> time_t_ok (T + 61) ->
    tevent_req_create_ok o = true ->
    let new := added m w in
    let w' := exec m w in
    (time_at_gate o = T + 30 ->
       updates new = 0%nat
       /\ (exists pre, new = pre ++ [observe (ctx w') update_finished])
       /\ last_refresh (dyndns_ctx (ctx w')) = T)
    /\ (time_at_gate o = T + 61 -> time_at_stamp o = T + 61 ->
        forall dns_zone,
          dp_opt_get_string (basic (ctx w)) IPA_DOMAIN = Some dns_zone ->
          has_ldap_scheme (uri (ctx w)) = true ->
          updates new = 1%nat
          /\ last_refresh (dyndns_ctx (ctx w')) = T + 61
          /\ (forall x, In x new -> is_update (what x) = true ->
                        seen_last_refresh x = T + 61)).
Proof.
  intros T o upd_ret w m Hm HT Hflag _ _ Hreq new w'. subst new w'.
  destruct Hm as [-> | (c & Hc & <- & <- & ->)].
  - destruct (cooldown_online T o upd_ret w HT Hflag Hreq) as [Ha Hb].
    split; [exact Ha|].
    intros H1 H2 z Hz Hu. rewrite <- strncmp_ldap in Hu.
    exact (Hb H1 H2 z Hz Hu).
  - destruct (cooldown_online T (at_send c) (update_ret c) (after_connect w)
                HT eq_refl Hreq) as [Ha Hb].
    unfold exec in *. rewrite (periodic_cycle_connected c w Hc).
    rewrite (periodic_cycle_added c w Hc). split.
    + intros Hnow. destruct (Ha Hnow) as (U & (pre & E) & L).
      split; [|split; [|exact L]].
      * change (updates ([observe (flagged true (ctx w))
                            Call_sdap_id_op_connect_send;
                          observe (flagged false (flagged true (ctx w)))
                            Call_be_nsupdate_timer_schedule]
                         ++ added (online_cycle (at_send c) (update_ret c))
                                  (after_connect w)) = 0%nat).
        unfold updates in *. rewrite count_if_app, U. reflexivity.
      * exists (observe (flagged true (ctx w)) Call_sdap_id_op_connect_send
                :: observe (flagged false (flagged true (ctx w)))
                           Call_be_nsupdate_timer_schedule :: pre).
        rewrite E. reflexivity.
    + intros H1 H2 z Hz Hu. rewrite <- strncmp_ldap in Hu.
      destruct (Hb H1 H2 z Hz Hu) as (U & L & S).
      split; [|split; [exact L|]].
      * change (updates ([observe (flagged true (ctx w))
                            Call_sdap_id_op_connect_send;
                          observe (flagged false (flagged true (ctx w)))
                            Call_be_nsupdate_timer_schedule]
                         ++ added (online_cycle (at_send c) (update_ret c))
                                  (after_connect w)) = 1%nat).
        unfold updates in *. rewrite count_if_app, U. reflexivity.
      * intros x [<- | [<- | Hin]] Hx; try discriminate.
        exact (S x Hin Hx).
Qed.

Lemma cooldown_scenarios_witness :
  let T := 1000 in
  let w := ex_world T false "ldap://ipa.example.test" in
  (updates (added (online_cycle (ex_send (T + 30)) EOK) w) = 0%nat
   /\ last_refresh
        (dyndns_ctx (ctx (exec (online_cycle (ex_send (T + 30)) EOK) w))) = T)
  /\ (updates (added (periodic_cycle (ex_cycle EOK DP_ERR_OK (T + 61))) w)
      = 1%nat
      /\ last_refresh
           (dyndns_ctx
              (ctx (exec (periodic_cycle (ex_cycle EOK DP_ERR_OK (T + 61))) w)))
         = T + 61).
Proof.
  assert (R : time_t_ok 1000 /\ time_t_ok (1000 + 61))
    by (unfold time_t_ok, TIME_T_MAX; simpl; lia).
  destruct R as [R1 R2].
  split.
  - destruct (cooldown_scenarios 1000 (ex_send (1000 + 30)) EOK
                (ex_world 1000 false "ldap://ipa.example.test")
                (online_cycle (ex_send (1000 + 30)) EOK)
                (or_introl eq_refl)
                eq_refl eq_refl R1 R2 eq_refl) as [H _].
    destruct (H eq_refl) as (H1 & _ & H2). split; [exact H1 | exact H2].
  - destruct (cooldown_scenarios 1000 (ex_send (1000 + 61)) EOK
                (ex_world 1000 false "ldap://ipa.example.test")
                (periodic_cycle (ex_cycle EOK DP_ERR_OK (1000 + 61)))
                (or_intror
                   (ex_intro _ (ex_cycle EOK DP_ERR_OK (1000 + 61))
                      (conj eq_refl (conj eq_refl (conj eq_refl eq_refl)))))
                eq_refl eq_refl R1 R2 eq_refl) as [_ H].
    destruct (H eq_refl eq_refl 1%N eq_refl eq_refl) as (H1 & H2 & _).
    split; [exact H1 | exact H2].
Defined.

(** ** C7 *)

(** C7: for a cycle that has a request and passes the gate.  If the URI
    of the connected server does not begin with "ldap://", the request is
    completed with the error EIO and posted, the cycle ends with the
    failure message for EIO, and the update operation is not called.  If
    the URI is "ldap://" followed by [server] (and a domain is
    configured), the update operation is called once, with [server] as
    server name. *)
Theorem uri_scheme_is_checked :
  forall (o : send_oracle) (upd_ret : errno_t) (w : world),
    tevent_req_create_ok o = true ->
    gate_denies (ctx w) (time_at_gate o) = false ->
    let new := added (online_cycle o upd_ret) w in
    (has_ldap_scheme (uri (ctx w)) = false ->
       (exists r, eval (ipa_dyndns_update o) w = Some r
                  /\ req_state r = TEVENT_REQ_USER_ERROR EIO
                  /\ req_posted r = true
                  /\ req_fn r = Some CB_ipa_dyndns_nsupdate_done)
       /\ updates new = 0%nat
       /\ exists pre,
            new = pre ++ [observe (stamp (time_at_stamp o) (ctx w))
                                  (update_failed EIO)])
    /\ (forall dns_zone server,
          dp_opt_get_string (basic (ctx w)) IPA_DOMAIN = Some dns_zone ->
          uri (ctx w) = ("ldap://" ++ server)%string ->
          updates new = 1%nat
          /\ exists a,
               In (Call_sdap_dyndns_update_send a) (map what new)
               /\ arg_servername a = c_str server).
Proof.
  intros o upd_ret w Hreq Hgate new. subst new. split.
  - intros Hbad. rewrite <- strncmp_ldap in Hbad.
    assert (E : exists w' mid,
               ipa_dyndns_update o w =
                 (Some {| req_state := TEVENT_REQ_USER_ERROR EIO;
                          req_posted := true;
                          req_fn := Some CB_ipa_dyndns_nsupdate_done |}, w')
               /\ ctx w' = stamp (time_at_stamp o) (ctx w)
               /\ trace w' = trace w ++ mid /\ updates mid = 0%nat).
    { destruct (dp_opt_get_string (basic (ctx w)) IPA_DOMAIN) as [z|] eqn:Hdom.
      - rewrite (update_bad_uri o w Hreq Hgate z Hdom Hbad).
        eexists; eexists. repeat split; reflexivity.
      - rewrite (update_no_domain o w Hreq Hgate Hdom).
        eexists; eexists. repeat split; reflexivity. }
    destruct E as (w' & mid & E & Hc & Ht & Um).
    split.
    + unfold eval. rewrite E. eexists. repeat split; reflexivity.
    + destruct (online_cycle_eq o upd_ret w w' _ E eq_refl)
        as (pre & Ec & Hpre).
      destruct Hpre as [-> | [Hp _]]; [|discriminate].
      unfold added, exec. rewrite Ec. cbn [snd trace].
      rewrite Ht, <- app_assoc, skipn_length_app, Hc. cbn [app].
      split.
      * unfold updates in *. rewrite count_if_app, Um. reflexivity.
      * exists mid. reflexivity.
  - intros dns_zone server Hdom Hu.
    assert (Huri : strncmp_eq (uri (ctx w)) "ldap://" 7 = true).
    { rewrite strncmp_ldap, Hu. destruct server; reflexivity. }
    destruct (online_cycle_update_called o upd_ret w dns_zone
                Hreq Hgate Hdom Huri) as (tail & Ec & Ut & _).
    unfold added, exec. rewrite Ec. cbn [snd trace].
    rewrite skipn_length_app. split.
    + change (updates ([observe (ctx w) Call_be_nsupdate_timer_schedule;
                        observe (ctx w) performing;
                        the_update_call o w dns_zone] ++ tail) = 1%nat).
      unfold updates in *. rewrite count_if_app, Ut. reflexivity.
    + exists (update_request (ctx w) (lowered dns_zone (heap w)) dns_zone).
      split.
      * cbn. right. right. left. reflexivity.
      * unfold update_request. cbn [arg_servername]. rewrite Hu. reflexivity.
Qed.

Lemma uri_scheme_is_checked_witness :
  let bad := ex_world 1000 false "https://host:1234" in
  let good := ex_world 1000 false "ldap://ipa.example.test" in
  ((exists r, eval (ipa_dyndns_update (ex_send 1061)) bad = Some r
              /\ req_state r = TEVENT_REQ_USER_ERROR EIO
              /\ req_posted r = true
              /\ req_fn r = Some CB_ipa_dyndns_nsupdate_done)
   /\ updates (added (online_cycle (ex_send 1061) EOK) bad) = 0%nat)
  /\ (updates (added (online_cycle (ex_send 1061) EOK) good) = 1%nat
      /\ exists a,
           In (Call_sdap_dyndns_update_send a)
              (map what (added (online_cycle (ex_send 1061) EOK) good))
           /\ arg_servername a = c_str "ipa.example.test").
Proof.
  split.
  - destruct (uri_scheme_is_checked (ex_send 1061) EOK
                (ex_world 1000 false "https://host:1234") eq_refl eq_refl)
      as [Ha _].
    destruct (Ha eq_refl) as (Hr & Hu & _). split; [exact Hr | exact Hu].
  - destruct (uri_scheme_is_checked (ex_send 1061) EOK
                (ex_world 1000 false "ldap://ipa.example.test")
                eq_refl eq_refl) as [_ Hb].
    exact (Hb 1%N "ipa.example.test" eq_refl eq_refl).
Defined.

(** ** C8 *)

(** The requests [ipa_dyndns_update] leaves with the event loop: the
    callback is always [ipa_dyndns_nsupdate_done]; a request is posted
    exactly when its state is already decided. *)
Lemma update_request_shape (o : send_oracle) (w : world) (r : tevent_req) :
  eval (ipa_dyndns_update o) w = Some r ->
  req_fn r = Some CB_ipa_dyndns_nsupdate_done
  /\ (req_posted r = true
      /\ (req_state r = TEVENT_REQ_DONE
          \/ req_state r = TEVENT_REQ_USER_ERROR EIO)
      \/ req_posted r = false /\ req_state r = TEVENT_REQ_IN_PROGRESS).
Proof.
  unfold eval. rewrite ipa_dyndns_update_eq.
  send_cases o (scheduled w); cbn; intros H; inversion H; cbn;
    (split; [reflexivity|]); auto.
Qed.

(** C8: for a cycle that has a request and passes the gate, a missing
    domain completes the request with the error EIO and posts it; the
    event loop then calls the request's callback
    [ipa_dyndns_nsupdate_done], which receives EIO from
    [ipa_dyndns_update_recv] and logs the failure.  This is the channel
    of every cycle: whatever request [ipa_dyndns_update] leaves behind
    (gate denied, early exit, or update in flight) has
    [ipa_dyndns_nsupdate_done] as callback, it is posted exactly when it
    did not start the update, and completing it ends with the one message
    of [ipa_dyndns_nsupdate_done] for the error of the cycle. *)
Theorem early_exits_complete_through_the_callback :
  (forall (o : send_oracle) (upd_ret : errno_t) (w : world),
      tevent_req_create_ok o = true ->
      gate_denies (ctx w) (time_at_gate o) = false ->
      dp_opt_get_string (basic (ctx w)) IPA_DOMAIN = None ->
      eval (ipa_dyndns_update o) w =
        Some {| req_state := TEVENT_REQ_USER_ERROR EIO; req_posted := true;
                req_fn := Some CB_ipa_dyndns_nsupdate_done |}
      /\ added (online_cycle o upd_ret) w =
           [observe (ctx w) Call_be_nsupdate_timer_schedule;
            observe (ctx w) performing;
            observe (stamp (time_at_stamp o) (ctx w)) (update_failed EIO)])
  /\ (forall (o : send_oracle) (upd_ret : errno_t) (w : world) r,
      eval (ipa_dyndns_update o) w = Some r ->
      let w' := exec (ipa_dyndns_update o) w in
      req_fn r = Some CB_ipa_dyndns_nsupdate_done
      /\ (req_posted r = true <-> req_state r <> TEVENT_REQ_IN_PROGRESS)
      /\ exists pre,
           added (complete upd_ret (Some r)) w' =
             pre ++ [observe (ctx w')
                             (nsupdate_done_log (cycle_errno r upd_ret))]
           /\ (pre = [] \/ req_posted r = false)).
Proof.
  split.
  - intros o upd_ret w Hreq Hgate Hdom.
    pose proof (update_no_domain o w Hreq Hgate Hdom) as E.
    split; [unfold eval; rewrite E; reflexivity|].
    destruct (online_cycle_eq o upd_ret w _ _ E eq_refl) as (pre & Ec & Hpre).
    destruct Hpre as [-> | [Hp _]]; [|discriminate].
    unfold added, exec. rewrite Ec. new_entries. reflexivity.
  - intros o upd_ret w r Hr w'. subst w'.
    destruct (update_request_shape o w r Hr) as [Hfn Hshape].
    split; [exact Hfn|]. split.
    + destruct Hshape as [[Hp [Hs|Hs]] | [Hp Hs]]; rewrite Hp, Hs;
        split; intros H; congruence.
    + destruct (complete_eq upd_ret r (exec (ipa_dyndns_update o) w) Hfn)
        as (pre & Ec & Hpre).
      exists pre. split.
      * apply added_of_app. unfold exec at 1. rewrite Ec. reflexivity.
      * destruct Hpre as [-> | [Hp _]]; auto.
Qed.

Lemma early_exits_complete_through_the_callback_witness :
  let o := ex_send 1061 in
  let w := ex_no_domain in
  eval (ipa_dyndns_update o) w =
    Some {| req_state := TEVENT_REQ_USER_ERROR EIO; req_posted := true;
            req_fn := Some CB_ipa_dyndns_nsupdate_done |}
  /\ added (online_cycle o EOK) w =
       [observe (ctx w) Call_be_nsupdate_timer_schedule;
        observe (ctx w) performing;
        observe (stamp (time_at_stamp o) (ctx w)) (update_failed EIO)].
Proof.
  apply (proj1 early_exits_complete_through_the_callback
           (ex_send 1061) EOK ex_no_domain);
    reflexivity.
Defined.

(** ** C2 *)

Lemma is_nul_tolower (c : ascii) : is_nul (tolower c) = is_nul c.
Proof. destruct c as [[] [] [] [] [] [] [] []]; reflexivity. Qed.

(** What a reader sees after the loop is the lower-cased string. *)
Lemma c_str_lower_loop (s : string) :
  c_str (lower_loop s) = str_map tolower (c_str s).
Proof.
  induction s as [|c r IH]; [reflexivity|].
  cbn [lower_loop c_str]. destruct (is_nul c) eqn:E.
  - cbn [c_str]. rewrite E. reflexivity.
  - cbn [c_str str_map]. rewrite is_nul_tolower, E, IH. reflexivity.
Qed.

(** The claim of C2 fails on its frame part: the loop runs over the
    buffer the option store holds, so after a cycle the configured domain
    itself reads "example.test". *)
Lemma zone_lowering_changes_the_store :
  let w := ex_world 1000 false "ldap://ipa.example.test" in
  let w' := exec (ipa_dyndns_update (ex_send 1061)) w in
  deref (heap w) (dp_opt_get_string (basic (ctx w)) IPA_DOMAIN)
    = Some "EXAMPLE.TEST"
  /\ deref (heap w') (dp_opt_get_string (basic (ctx w')) IPA_DOMAIN)
     = Some "example.test"
  /\ deref (heap w') (dp_opt_get_string (basic (ctx w')) IPA_DOMAIN)
     <> deref (heap w) (dp_opt_get_string (basic (ctx w)) IPA_DOMAIN).
Proof. vm_compute. repeat split; discriminate. Qed.

(** C2, amended: the domain is lower-cased in place.  For a cycle that
    has a request and passes the gate, with a domain configured in the
    buffer [dns_zone]: afterwards the option store points to the same
    buffers, the buffer [dns_zone] (the stored value of IPA_DOMAIN) reads
    as the lower-cased domain, every other buffer is unchanged, and every
    call of the update operation is passed the lower-cased domain as
    zone; there is such a call when the server URI has the expected
    scheme. *)
Theorem zone_is_lowered_in_place :
  forall (o : send_oracle) (w : world) (dns_zone : ptr),
    tevent_req_create_ok o = true ->
    gate_denies (ctx w) (time_at_gate o) = false ->
    dp_opt_get_string (basic (ctx w)) IPA_DOMAIN = Some dns_zone ->
    let w' := exec (ipa_dyndns_update o) w in
    let new := added (ipa_dyndns_update o) w in
    let lowered_domain := str_map tolower (c_str (heap w dns_zone)) in
    basic (ctx w') = basic (ctx w)
    /\ deref (heap w') (dp_opt_get_string (basic (ctx w')) IPA_DOMAIN)
       = Some lowered_domain
    /\ (forall q, q <> dns_zone -> heap w' q = heap w q)
    /\ (forall x a, In x new -> what x = Call_sdap_dyndns_update_send a ->
                    arg_dns_zone a = lowered_domain)
    /\ (has_ldap_scheme (uri (ctx w)) = true ->
        exists x a, In x new /\ what x = Call_sdap_dyndns_update_send a).
Proof.
  intros o w dns_zone Hreq Hgate Hdom w' new lowered_domain.
  subst w' new lowered_domain.
  assert (Hbuf : c_str (lowered dns_zone (heap w) dns_zone)
                 = str_map tolower (c_str (heap w dns_zone))).
  { unfold lowered, heap_store. rewrite N.eqb_refl. apply c_str_lower_loop. }
  assert (Hother : forall q, q <> dns_zone ->
                             lowered dns_zone (heap w) q = heap w q).
  { intros q Hq. unfold lowered, heap_store.
    destruct (N.eqb_spec q dns_zone); [contradiction | reflexivity]. }
  unfold added, exec.
  destruct (strncmp_eq (uri (ctx w)) "ldap://" 7) eqn:Huri.
  - destruct (update_called o w Hreq Hgate dns_zone Hdom Huri)
      as (r & rest & E & _ & Ur & _).
    rewrite E. cbn [snd ctx heap trace basic stamp].
    rewrite skipn_length_app, Hdom. cbn [deref option_map].
    rewrite Hbuf. repeat split; auto.
    + intros x a [<- | [<- | [<- | Hin]]] Hx; try discriminate.
      * cbn in Hx. inversion Hx. unfold update_request. cbn [arg_dns_zone].
        exact Hbuf.
      * pose proof (no_update_in rest x Ur Hin) as Hn.
        rewrite Hx in Hn. discriminate.
    + intros _. exists (the_update_call o w dns_zone). eexists.
      split; [right; right; left; reflexivity | reflexivity].
  - rewrite (update_bad_uri o w Hreq Hgate dns_zone Hdom Huri).
    cbn [snd ctx heap trace basic stamp].
    rewrite skipn_length_app, Hdom. cbn [deref option_map].
    rewrite Hbuf. repeat split; auto.
    + intros x a [<- | [<- | [<- | []]]] Hx; discriminate.
    + rewrite <- strncmp_ldap, Huri. discriminate.
Qed.

Lemma zone_is_lowered_in_place_witness :
  let o := ex_send 1061 in
  let w := ex_world 1000 false "ldap://ipa.example.test" in
  let w' := exec (ipa_dyndns_update o) w in
  let new := added (ipa_dyndns_update o) w in
  basic (ctx w') = basic (ctx w)
  /\ deref (heap w') (dp_opt_get_string (basic (ctx w')) IPA_DOMAIN)
     = Some "example.test"
  /\ (forall q, q <> 1%N -> heap w' q = heap w q)
  /\ (forall x a, In x new -> what x = Call_sdap_dyndns_update_send a ->
                  arg_dns_zone a = "example.test")
  /\ (has_ldap_scheme (uri (ctx w)) = true ->
      exists x a, In x new /\ what x = Call_sdap_dyndns_update_send a).
Proof.
  exact (zone_is_lowered_in_place (ex_send 1061)
           (ex_world 1000 false "ldap://ipa.example.test") 1%N
           eq_refl eq_refl eq_refl).
Defined.

(** ** C4 *)

(** The claim of C4 fails when timer callbacks overlap.  With the
    connection attempt of a first timer callback outstanding and the flag
    set, an online callback is denied by the gate but re-arms the timer;
    when that timer fires, the timer callback starts a second attempt.
    If instead that timer callback fails to start its attempt, it clears
    the flag, and two online callbacks a minute apart then both call the
    update operation while the first attempt is still outstanding. *)
Lemma overlapping_timer_callbacks :
  (sys_flag ex_connecting = true /\ attempts ex_connecting = 1%nat)
  /\ (let s := fire_all ex_connecting
                  [Online (ex_send 1010); Periodic ex_timer] in
      sys_flag s = true /\ attempts s = 2%nat)
  /\ (let s := fire_all ex_connecting
                  [Online (ex_send 1010); Periodic ex_timer_fails;
                   Online (ex_send 1061); Online (ex_send 1121)] in
      attempts s = 1%nat
      /\ (sys_updates s = sys_updates ex_connecting + 2)%nat).
Proof. vm_compute. repeat split. Qed.

(** One trigger with the flag set: no call of the update operation, and
    [last_refresh] and the buffers stay. *)
Lemma fire_in_progress (s : system) (t : trigger) :
  sys_flag s = true ->
  sys_updates (fire s t) = sys_updates s
  /\ sys_last_refresh (fire s t) = sys_last_refresh s
  /\ heap (sys_world (fire s t)) = heap (sys_world s)
  /\ (attempts s <= attempts (fire s t))%nat
  /\ (is_online t = true -> attempts (fire s t) = attempts s)
  /\ (keeps_flag t = true -> sys_flag (fire s t) = true).
Proof.
  destruct s as [w n a]. unfold sys_flag, sys_updates, sys_last_refresh.
  cbn [sys_world attempts timer_armed]. intros Hflag.
  destruct t as [o|o];
    cbn [fire sys_world attempts timer_armed is_online keeps_flag].
  - destruct a; [|cbn; repeat split; auto].
    rewrite timer_eq.
    destruct (talloc_zero_ok o); [destruct (sdap_id_op_create_ok o);
      [destruct (sdap_id_op_connect_send_err o)|]|];
      unfold updates; cbn -[count_if rearmed]; rewrite ?count_if_snoc;
      cbn -[count_if rearmed];
      repeat split; try lia; try discriminate; auto.
  - assert (Hden : gate_denies (ctx (scheduled w)) (time_at_gate o) = true).
    { apply gate_denies_iff. left. exact Hflag. }
    unfold exec. rewrite ipa_dyndns_update_eq.
    destruct (tevent_req_create_ok o) eqn:Hreq.
    + rewrite (update_send_denied o (scheduled w) Hreq Hden).
      unfold updates; cbn -[count_if rearmed]; rewrite ?count_if_snoc;
      cbn -[count_if rearmed];
      repeat split; try lia; auto.
    + rewrite (update_send_no_request o (scheduled w) Hreq).
      unfold updates; cbn -[count_if rearmed]; rewrite ?count_if_snoc;
      cbn -[count_if rearmed];
      repeat split; try lia; auto.
Qed.

(** C4, amended: a trigger that fires while [timer_in_progress] is set
    never calls the update operation, whichever callback it is.  Over any
    run of triggers that do not go through [fail:] in [ipa_dyndns_timer]
    (online callbacks, timer callbacks that start their connection
    attempt or return early) the flag stays set, so the run calls the
    update operation not once and leaves [last_refresh] and the buffers
    alone.  Online callbacks leave the number of outstanding connection
    attempts as it is; timer callbacks do not test the flag and may add
    to it. *)
Theorem triggers_while_in_progress :
  (forall (s : system) (t : trigger),
      sys_flag s = true -> sys_updates (fire s t) = sys_updates s)
  /\ (forall (ts : list trigger) (s : system),
      sys_flag s = true ->
      forallb keeps_flag ts = true ->
      let s' := fire_all s ts in
      sys_updates s' = sys_updates s
      /\ sys_flag s' = true
      /\ sys_last_refresh s' = sys_last_refresh s
      /\ heap (sys_world s') = heap (sys_world s)
      /\ (attempts s <= attempts s')%nat
      /\ (forallb is_online ts = true -> attempts s' = attempts s)).
Proof.
  split.
  - intros s t Hflag. apply (fire_in_progress s t Hflag).
  - induction ts as [|t ts IH]; intros s Hflag Hkeep; cbn [fire_all fold_left].
    + repeat split; auto.
    + cbn [forallb] in Hkeep. apply andb_true_iff in Hkeep.
      destruct Hkeep as [Ht Hts].
      destruct (fire_in_progress s t Hflag) as (U & L & H & A & O & F).
      specialize (IH (fire s t) (F Ht) Hts). cbv zeta in IH.
      unfold fire_all in IH.
      destruct IH as (U' & F' & L' & H' & A' & O').
      repeat split.
      * rewrite U'. exact U.
      * exact F'.
      * rewrite L'. exact L.
      * rewrite H'. exact H.
      * lia.
      * cbn [forallb]. intros Hon. apply andb_true_iff in Hon.
        destruct Hon as [Hon1 Hon2]. rewrite (O' Hon2). exact (O Hon1).
Qed.

Lemma triggers_while_in_progress_witness :
  let ts := [Online (ex_send 1061); Periodic ex_timer; Online (ex_send 1121)] in
  let s' := fire_all ex_connecting ts in
  sys_updates (fire ex_connecting (Online (ex_send 1061)))
    = sys_updates ex_connecting
  /\ sys_updates s' = sys_updates ex_connecting
  /\ sys_flag s' = true
  /\ sys_last_refresh s' = sys_last_refresh ex_connecting
  /\ heap (sys_world s') = heap (sys_world ex_connecting)
  /\ (attempts ex_connecting <= attempts s')%nat.
Proof.
  split.
  - apply (proj1 triggers_while_in_progress ex_connecting
             (Online (ex_send 1061))).
    reflexivity.
  - destruct (proj2 triggers_while_in_progress
                [Online (ex_send 1061); Periodic ex_timer;
                 Online (ex_send 1121)]
                ex_connecting eq_refl eq_refl)
      as (U & F & L & H & A & _).
    repeat split; assumption.
Defined.

(** * Further properties *)

(** ** What [ipa_dyndns_update] does to the world *)

(** Case analysis on the path of [ipa_dyndns_update o] from [w], with
    the conditions read in [w] itself. *)
Ltac update_cases o w :=
  let Hreq := fresh "Hreq" in
  let Hgate := fresh "Hgate" in
  let Hdom := fresh "Hdom" in
  let Huri := fresh "Huri" in
  let Hsub := fresh "Hsub" in
  let z := fresh "dns_zone" in
  rewrite (ipa_dyndns_update_eq o w);
  destruct (tevent_req_create_ok o) eqn:Hreq;
  [ destruct (gate_denies (ctx w) (time_at_gate o)) eqn:Hgate;
    [ rewrite (update_send_denied o (scheduled w) Hreq Hgate)
    | destruct (dp_opt_get_string (basic (ctx w)) IPA_DOMAIN) as [z|] eqn:Hdom;
      [ destruct (strncmp_eq (uri (ctx w)) "ldap://" 7) eqn:Huri;
        [ destruct (sdap_dyndns_update_send_ok o) eqn:Hsub;
          [ rewrite (update_send_started o (scheduled w) Hreq Hgate z Hdom
                       Huri Hsub)
          | rewrite (update_send_no_subreq o (scheduled w) Hreq Hgate z Hdom
                       Huri Hsub) ]
        | rewrite (update_send_bad_uri o (scheduled w) Hreq Hgate z Hdom Huri) ]
      | rewrite (update_send_no_domain o (scheduled w) Hreq Hgate Hdom) ] ]
  | rewrite (update_send_no_request o (scheduled w) Hreq) ].

Lemma lowered_other (p q : ptr) (h : heap_t) :
  q <> p -> lowered p h q = h q.
Proof.
  intros Hq. unfold lowered, heap_store.
  destruct (N.eqb_spec q p); [contradiction | reflexivity].
Qed.

Ltac forall_idle :=
  repeat (apply Forall_cons;
          [ unfold update_seen_idle; cbn;
            let H := fresh in intros H; try discriminate H; auto |]);
  apply Forall_nil.

Lemma update_effect (o : send_oracle) (w : world) :
  let w' := exec (ipa_dyndns_update o) w in
  exists new,
    trace w' = trace w ++ new
    /\ Forall update_seen_idle new
    /\ updates new = (if update_goes_out o w then 1 else 0)%nat
    /\ rearms new = 1%nat
    /\ timer_in_progress (dyndns_ctx (ctx w'))
       = timer_in_progress (dyndns_ctx (ctx w))
    /\ last_refresh (dyndns_ctx (ctx w'))
       = (if tevent_req_create_ok o
             && negb (gate_denies (ctx w) (time_at_gate o))
          then time_at_stamp o
          else last_refresh (dyndns_ctx (ctx w)))
    /\ (forall q, dp_opt_get_string (basic (ctx w)) IPA_DOMAIN <> Some q ->
                  heap w' q = heap w q).
Proof.
  cbv zeta. unfold exec, update_goes_out.
  update_cases o w; cbn [andb negb];
    try (apply gate_passes_iff in Hgate; destruct Hgate as [Hflag _]);
    explicit_worlds;
    (eexists; split; [reflexivity|]);
    (split; [forall_idle|]);
    (split; [reflexivity|]); (split; [reflexivity|]);
    (split; [reflexivity|]);
    (split; [reflexivity|]);
    intros q Hq; try reflexivity;
    apply lowered_other; congruence.
Qed.

(** ** Initialisation *)

(** X1: [ipa_dyndns_init] always stores the backend's resolver in the
    options.  Without a resolver it returns EINVAL and does not call
    [be_add_online_cb]; with one it calls [be_add_online_cb] exactly once
    and returns what that call returned.  So it returns EOK exactly when
    there is a resolver and the registration succeeded. *)
Theorem ipa_dyndns_init_result :
  forall (be_res : option ptr) (cb_ret : errno_t) (s : init_state),
    let r := ipa_dyndns_init be_res cb_ret s in
    let new := skipn (List.length (init_trace s)) (init_trace (snd r)) in
    ctx_be_res (snd r) = be_res
    /\ (be_res = None ->
        fst r = EINVAL /\ filter is_add_online_cb new = [])
    /\ (be_res <> None ->
        fst r = cb_ret /\ filter is_add_online_cb new = [Call_be_add_online_cb])
    /\ (fst r = EOK <-> be_res <> None /\ cb_ret = EOK).
Proof.
  intros be_res cb_ret s. cbv zeta. unfold ipa_dyndns_init, init_log.
  destruct be_res as [p|]; cbn [ctx_be_res init_trace].
  - destruct (Z.eqb_spec cb_ret EOK) as [E|E]; cbn [negb fst snd init_trace];
      rewrite <- ?app_assoc, skipn_length_app; cbn;
      (split; [reflexivity|]); (split; [intros H; discriminate H|]);
      (split; [intros _; split; [congruence | reflexivity]|]);
      (split; [intros H; split; [discriminate | congruence]
              | intros [_ H]; congruence]).
  - cbn [fst snd init_trace]. rewrite skipn_length_app. cbn.
    split; [reflexivity|]. split; [intros _; split; reflexivity|].
    split; [intros H; contradiction H; reflexivity|].
    split; [intros H; discriminate H | intros [H _]; contradiction H; reflexivity].
Qed.

Lemma ipa_dyndns_init_result_witness :
  let s := {| ctx_be_res := None; init_trace := [] |} in
  (fst (ipa_dyndns_init None EOK s) = EINVAL
   /\ filter is_add_online_cb (init_trace (snd (ipa_dyndns_init None EOK s)))
      = [])
  /\ (fst (ipa_dyndns_init (Some 7%N) EIO s) = EIO
      /\ filter is_add_online_cb
                (init_trace (snd (ipa_dyndns_init (Some 7%N) EIO s)))
         = [Call_be_add_online_cb]).
Proof.
  split.
  - destruct (ipa_dyndns_init_result None EOK
                {| ctx_be_res := None; init_trace := [] |}) as (_ & H & _).
    exact (H eq_refl).
  - destruct (ipa_dyndns_init_result (Some 7%N) EIO
                {| ctx_be_res := None; init_trace := [] |}) as (_ & _ & H & _).
    apply H. discriminate.
Defined.

(** ** The lower-casing loop *)

Lemma lower_loop_length (s : string) :
  String.length (lower_loop s) = String.length s.
Proof.
  induction s as [|c r IH]; [reflexivity|].
  cbn [lower_loop]. destruct (is_nul c); [reflexivity|].
  cbn [String.length]. rewrite IH. reflexivity.
Qed.

Lemma tolower_idempotent (c : ascii) : tolower (tolower c) = tolower c.
Proof. destruct c as [[] [] [] [] [] [] [] []]; reflexivity. Qed.

Lemma lower_loop_idempotent (s : string) :
  lower_loop (lower_loop s) = lower_loop s.
Proof.
  induction s as [|c r IH]; [reflexivity|].
  cbn [lower_loop]. destruct (is_nul c) eqn:E.
  - cbn [lower_loop]. rewrite E. reflexivity.
  - cbn [lower_loop]. rewrite is_nul_tolower, E, tolower_idempotent, IH.
    reflexivity.
Qed.

Lemma lower_loop_tail (s : string) :
  advance (String.length (c_str s)) (lower_loop s)
  = advance (String.length (c_str s)) s.
Proof.
  induction s as [|c r IH]; [reflexivity|].
  cbn [lower_loop c_str]. destruct (is_nul c); [reflexivity|].
  cbn [String.length]. exact IH.
Qed.

Lemma lowered_length (p : ptr) (h : heap_t) (q : ptr) :
  String.length (lowered p h q) = String.length (h q).
Proof.
  unfold lowered, heap_store.
  destruct (N.eqb_spec q p) as [->|_];
    [apply lower_loop_length | reflexivity].
Qed.

(** X2: the loop works in place.  It never changes the size of a buffer,
    it leaves every byte from the first NUL on as it was, and running it
    again changes nothing: a later cycle finds the zone buffer already in
    its final state. *)
Theorem lower_loop_in_place :
  forall (p : ptr) (h : heap_t) (q : ptr),
    String.length (lowered p h q) = String.length (h q)
    /\ advance (String.length (c_str (h q))) (lowered p h q)
       = advance (String.length (c_str (h q))) (h q)
    /\ lowered p (lowered p h) q = lowered p h q.
Proof.
  intros p h q. unfold lowered, heap_store.
  destruct (N.eqb_spec q p) as [->|Hq].
  - rewrite N.eqb_refl. split; [apply lower_loop_length|].
    split; [apply lower_loop_tail | apply lower_loop_idempotent].
  - repeat split; reflexivity.
Qed.

(** ** The server name *)

Lemma strncmp_eq_split (p : string) :
  no_nul p = true ->
  forall u, strncmp_eq u p (String.length p) = true ->
            c_str u = (p ++ c_str (advance (String.length p) u))%string.
Proof.
  induction p as [|y p IH]; intros Hp u H.
  - reflexivity.
  - cbn in Hp. apply andb_true_iff in Hp. destruct Hp as [Hy Hp].
    apply negb_true_iff in Hy.
    destruct u as [|x u].
    + unfold strncmp_eq in H. cbn in H. congruence.
    + cbn [String.length] in H |- *.
      change (strncmp_eq (String x u) (String y p) (S (String.length p)))
        with (if Ascii.eqb x y
              then (if is_nul x then true
                    else strncmp_eq u p (String.length p))
              else false) in H.
      destruct (Ascii.eqb_spec x y) as [->|]; [|discriminate].
      rewrite Hy in H.
      cbn [c_str String.append].
      change (advance (S (String.length p)) (String y u))
        with (advance (String.length p) u).
      rewrite Hy, (IH Hp u H). reflexivity.
Qed.

(** X3: when the scheme test passes, the server name handed to the
    update operation is the URI without its scheme: putting "ldap://"
    back in front of it gives the URI as a reader sees it. *)
Theorem servername_is_uri_without_scheme :
  forall (c : ipa_options) (h : heap_t) (dns_zone : ptr),
    strncmp_eq (uri c) "ldap://" 7 = true ->
    ("ldap://" ++ arg_servername (update_request c h dns_zone))%string
    = c_str (uri c).
Proof.
  intros c h dns_zone H. unfold update_request. cbn [arg_servername].
  symmetry. exact (strncmp_eq_split "ldap://" eq_refl (uri c) H).
Qed.

Lemma servername_is_uri_without_scheme_witness :
  ("ldap://" ++ arg_servername
                  (update_request (ctx (ex_world 1000 false
                                          "ldap://ipa.example.test"))
                                  ex_heap 1%N))%string
  = c_str "ldap://ipa.example.test".
Proof.
  apply (servername_is_uri_without_scheme
           (ctx (ex_world 1000 false "ldap://ipa.example.test")) ex_heap 1%N).
  reflexivity.
Defined.

(** ** Whole online cycles *)

Lemma update_returns (o : send_oracle) (w : world) :
  (tevent_req_create_ok o = false -> eval (ipa_dyndns_update o) w = None)
  /\ (tevent_req_create_ok o = true ->
      exists r, eval (ipa_dyndns_update o) w = Some r
                /\ req_fn r = Some CB_ipa_dyndns_nsupdate_done).
Proof.
  unfold eval. update_cases o w; cbn; split; intros H; try discriminate H;
    try reflexivity; eexists; split; reflexivity.
Qed.

Lemma update_no_completion (o : send_oracle) (w : world) :
  completions (added (ipa_dyndns_update o) w) = 0%nat.
Proof.
  unfold added, exec. update_cases o w; new_entries; reflexivity.
Qed.

Lemma nsupdate_done_log_completion (ret : errno_t) :
  is_completion (nsupdate_done_log ret) = true.
Proof. unfold nsupdate_done_log. destruct (ret =? EOK); reflexivity. Qed.

(** What the completion of the request adds to an online cycle. *)
Lemma online_cycle_tail (o : send_oracle) (upd_ret : errno_t) (w : world) :
  let w1 := exec (ipa_dyndns_update o) w in
  exists tail,
    exec (online_cycle o upd_ret) w =
      {| ctx := ctx w1; heap := heap w1; trace := trace w1 ++ tail |}
    /\ updates tail = 0%nat /\ rearms tail = 0%nat
    /\ Forall update_seen_idle tail
    /\ completions tail = (if tevent_req_create_ok o then 1 else 0)%nat.
Proof.
  cbv zeta. destruct (update_returns o w) as [Hn Hs].
  unfold online_cycle, bind, exec, eval in *.
  destruct (ipa_dyndns_update o w) as [[r|] w1]; cbn [fst snd] in *.
  - destruct (tevent_req_create_ok o).
    2: { specialize (Hn eq_refl). discriminate Hn. }
    destruct (Hs eq_refl) as (r' & Er & Hfn). inversion Er; subst r'.
    destruct (complete_eq upd_ret r w1 Hfn) as (pre & E & Hpre).
    rewrite E. cbn [snd]. eexists. split; [reflexivity|].
    destruct (nsupdate_done_log_counts (cycle_errno r upd_ret)) as [Hsch Hup].
    pose proof (nsupdate_done_log_completion (cycle_errno r upd_ret)) as Hc.
    unfold updates, rearms, completions, count_if.
    destruct Hpre as [-> | [_ ->]]; cbn; rewrite Hsch, Hup, Hc;
      (repeat split; try reflexivity);
      repeat (apply Forall_cons;
              [unfold update_seen_idle; cbn; rewrite ?Hup;
               intros H; discriminate H|]);
      apply Forall_nil.
  - destruct (tevent_req_create_ok o).
    1: { destruct (Hs eq_refl) as (r' & Er & _). discriminate Er. }
    exists []. cbn. rewrite app_nil_r. destruct w1.
    repeat split; try reflexivity. apply Forall_nil.
Qed.

Lemma added_app_of {A B} (m1 : M A) (m2 : M B) (w : world) (tail : list obs) :
  (exists new, trace (exec m1 w) = trace w ++ new) ->
  trace (exec m2 w) = trace (exec m1 w) ++ tail ->
  added m2 w = added m1 w ++ tail.
Proof.
  intros [new E1] E2. unfold added. rewrite E2, E1, <- app_assoc.
  rewrite !skipn_length_app. reflexivity.
Qed.

Lemma online_cycle_added (o : send_oracle) (upd_ret : errno_t) (w : world) :
  exists tail,
    added (online_cycle o upd_ret) w = added (ipa_dyndns_update o) w ++ tail
    /\ updates tail = 0%nat /\ rearms tail = 0%nat
    /\ Forall update_seen_idle tail
    /\ completions tail = (if tevent_req_create_ok o then 1 else 0)%nat.
Proof.
  destruct (online_cycle_tail o upd_ret w) as (tail & E & H).
  exists tail. split; [|exact H].
  apply added_app_of.
  - destruct (update_effect o w) as (new & En & _). exists new. exact En.
  - rewrite E. reflexivity.
Qed.

Lemma online_cycle_updates (o : send_oracle) (upd_ret : errno_t) (w : world) :
  updates (added (online_cycle o upd_ret) w)
  = (if update_goes_out o w then 1 else 0)%nat.
Proof.
  destruct (online_cycle_added o upd_ret w) as (tail & E & U & _).
  destruct (update_effect o w) as (new & En & _ & Un & _).
  rewrite E, (added_of_app _ _ _ En).
  unfold updates in *. rewrite count_if_app, Un, U. lia.
Qed.

Lemma online_cycle_last_refresh (o : send_oracle) (upd_ret : errno_t)
      (w : world) :
  last_refresh (dyndns_ctx (ctx (exec (online_cycle o upd_ret) w)))
  = (if tevent_req_create_ok o && negb (gate_denies (ctx w) (time_at_gate o))
     then time_at_stamp o
     else last_refresh (dyndns_ctx (ctx w))).
Proof.
  destruct (online_cycle_tail o upd_ret w) as (tail & E & _).
  destruct (update_effect o w) as (new & _ & _ & _ & _ & _ & L & _).
  rewrite E. cbn [ctx]. exact L.
Qed.

(** X4: once the gate lets a cycle through, [last_refresh] is set to the
    time read for the stamp, whatever happens afterwards: also when the
    domain is missing, the URI is malformed, the subrequest cannot be
    created, or the update itself fails.  A failed cycle uses up the
    cooldown like a successful one. *)
Theorem last_refresh_stamped_even_on_failure :
  forall (o : send_oracle) (upd_ret : errno_t) (w : world),
    tevent_req_create_ok o = true ->
    gate_denies (ctx w) (time_at_gate o) = false ->
    last_refresh (dyndns_ctx (ctx (exec (online_cycle o upd_ret) w)))
    = time_at_stamp o.
Proof.
  intros o upd_ret w Hreq Hgate.
  rewrite online_cycle_last_refresh, Hreq, Hgate. reflexivity.
Qed.

Lemma last_refresh_stamped_even_on_failure_witness :
  last_refresh (dyndns_ctx (ctx (exec (online_cycle (ex_send 1061) EOK)
                                      ex_no_domain)))
  = 1061.
Proof.
  apply (last_refresh_stamped_even_on_failure (ex_send 1061) EOK ex_no_domain);
    reflexivity.
Defined.

(** X5: two cycles compose as a debounce.  After a cycle that passed the
    gate, a cycle whose gate reading is less than 60 seconds after the
    stamp of the first calls the update operation not at all and leaves
    [last_refresh] at the first stamp, whatever the first cycle ended
    with.  The sums of both gates are taken to be in the range of
    [time_t]: [last_refresh + 60] at the first cycle, the first stamp
    plus 60 at the second. *)
Theorem cycle_within_cooldown_is_denied :
  forall (o1 o2 : send_oracle) (r1 r2 : errno_t) (w : world),
    time_t_ok (last_refresh (dyndns_ctx (ctx w)) + 60) ->
    time_t_ok (time_at_stamp o1 + 60) ->
    tevent_req_create_ok o1 = true ->
    gate_denies (ctx w) (time_at_gate o1) = false ->
    time_at_gate o2 < time_at_stamp o1 + 60 ->
    let w1 := exec (online_cycle o1 r1) w in
    updates (added (online_cycle o2 r2) w1) = 0%nat
    /\ last_refresh (dyndns_ctx (ctx (exec (online_cycle o2 r2) w1)))
       = time_at_stamp o1
    /\ time_t_ok (last_refresh (dyndns_ctx (ctx w1)) + 60).
Proof.
  intros o1 o2 r1 r2 w _ Hrange Hreq Hgate Hsoon w1. subst w1.
  pose proof (online_cycle_last_refresh o1 r1 w) as L.
  rewrite Hreq, Hgate in L. cbn [andb negb] in L.
  assert (Hden : gate_denies (ctx (exec (online_cycle o1 r1) w))
                             (time_at_gate o2) = true).
  { apply gate_denies_iff. right. rewrite L. lia. }
  split; [|split].
  - rewrite online_cycle_updates. unfold update_goes_out. rewrite Hden.
    rewrite andb_false_r. reflexivity.
  - rewrite online_cycle_last_refresh, Hden, andb_false_r. exact L.
  - rewrite L. exact Hrange.
Qed.

Lemma cycle_within_cooldown_is_denied_witness :
  let w1 := exec (online_cycle (ex_send 1061) EIO)
                 (ex_world 1000 false "ldap://ipa.example.test") in
  updates (added (online_cycle (ex_send 1120) EOK) w1) = 0%nat
  /\ last_refresh (dyndns_ctx (ctx (exec (online_cycle (ex_send 1120) EOK) w1)))
     = 1061
  /\ time_t_ok (last_refresh (dyndns_ctx (ctx w1)) + 60).
Proof.
  apply (cycle_within_cooldown_is_denied (ex_send 1061) (ex_send 1120) EIO EOK
           (ex_world 1000 false "ldap://ipa.example.test")).
  - unfold time_t_ok, TIME_T_MAX. simpl. lia.
  - unfold time_t_ok, TIME_T_MAX. simpl. lia.
  - reflexivity.
  - reflexivity.
  - simpl. lia.
Defined.

(** X6: a cycle calls the update operation at most once.  With
    [last_refresh + 60] in the range of [time_t], an online cycle calls
    it exactly when a request is created, the gate passes, a domain is
    configured and the URI has the scheme; a periodic cycle exactly
    when, in addition, the connection attempt is started and succeeds. *)
Theorem update_called_exactly_when_reached :
  (forall (o : send_oracle) (upd_ret : errno_t) (w : world),
      time_t_ok (last_refresh (dyndns_ctx (ctx w)) + 60) ->
      updates (added (online_cycle o upd_ret) w)
      = (if update_goes_out o w then 1 else 0)%nat)
  /\ (forall (c : cycle_oracle) (w : world),
      time_t_ok (last_refresh (dyndns_ctx (ctx w)) + 60) ->
      updates (added (periodic_cycle c) w)
      = (if connects c && update_goes_out (at_send c) (after_connect w)
         then 1 else 0)%nat).
Proof.
  split; [intros o upd_ret w _; apply online_cycle_updates|].
  intros c w _. destruct (connects c) eqn:Hc; cbn [andb].
  - rewrite (periodic_cycle_added c w Hc).
    change (updates ([observe (flagged true (ctx w))
                        Call_sdap_id_op_connect_send;
                      observe (flagged false (flagged true (ctx w)))
                        Call_be_nsupdate_timer_schedule]
                     ++ added (online_cycle (at_send c) (update_ret c))
                              (after_connect w))
            = (if update_goes_out (at_send c) (after_connect w)
               then 1 else 0)%nat).
    unfold updates. rewrite count_if_app.
    change (count_if is_update
              (added (online_cycle (at_send c) (update_ret c))
                     (after_connect w)))
      with (updates (added (online_cycle (at_send c) (update_ret c))
                           (after_connect w))).
    rewrite online_cycle_updates. reflexivity.
  - unfold connects in Hc. unfold periodic_cycle, added, exec, bind.
    rewrite timer_eq.
    destruct (talloc_zero_ok (at_timer c)); [|new_entries; reflexivity].
    destruct (sdap_id_op_create_ok (at_timer c)); [|new_entries; reflexivity].
    destruct (sdap_id_op_connect_send_err (at_timer c));
      [new_entries; reflexivity|].
    cbn [andb] in Hc. rewrite timer_connected_eq, Hc.
    destruct (conn_dp_error c =? DP_ERR_OFFLINE); new_entries; reflexivity.
Qed.

Lemma update_called_exactly_when_reached_witness :
  let w := ex_world 1000 false "ldap://ipa.example.test" in
  updates (added (online_cycle (ex_send 1030) EOK) w) = 0%nat
  /\ updates (added (online_cycle (ex_send 1061) EOK) w) = 1%nat
  /\ updates (added (periodic_cycle (ex_cycle EOK DP_ERR_OK 1061)) w) = 1%nat
  /\ updates (added (periodic_cycle (ex_cycle EIO DP_ERR_OK 1061)) w) = 0%nat.
Proof.
  assert (R : time_t_ok (last_refresh
                           (dyndns_ctx
                              (ctx (ex_world 1000 false
                                      "ldap://ipa.example.test"))) + 60))
    by (unfold time_t_ok, TIME_T_MAX; simpl; lia).
  split; [|split; [|split]].
  - exact (proj1 update_called_exactly_when_reached (ex_send 1030) EOK
             (ex_world 1000 false "ldap://ipa.example.test") R).
  - exact (proj1 update_called_exactly_when_reached (ex_send 1061) EOK
             (ex_world 1000 false "ldap://ipa.example.test") R).
  - exact (proj2 update_called_exactly_when_reached
             (ex_cycle EOK DP_ERR_OK 1061)
             (ex_world 1000 false "ldap://ipa.example.test") R).
  - exact (proj2 update_called_exactly_when_reached
             (ex_cycle EIO DP_ERR_OK 1061)
             (ex_world 1000 false "ldap://ipa.example.test") R).
Defined.

(** X7: an online cycle ends with exactly one message of
    [ipa_dyndns_nsupdate_done] when a request could be created, and with
    none when [tevent_req_create] failed: then the timer is re-armed,
    "Could not update DNS" is logged, and the context and the buffers are
    untouched. *)
Theorem one_completion_per_request :
  forall (o : send_oracle) (upd_ret : errno_t) (w : world),
    completions (added (online_cycle o upd_ret) w)
    = (if tevent_req_create_ok o then 1 else 0)%nat
    /\ (tevent_req_create_ok o = false ->
        online_cycle o upd_ret w =
          (tt, logged (logged (scheduled w) performing) could_not_update)).
Proof.
  intros o upd_ret w. split.
  - destruct (online_cycle_added o upd_ret w) as (tail & E & _ & _ & _ & C).
    rewrite E. unfold completions in *. rewrite count_if_app, C.
    change (count_if is_completion (added (ipa_dyndns_update o) w))
      with (completions (added (ipa_dyndns_update o) w)).
    rewrite update_no_completion. reflexivity.
  - intros Hreq. unfold online_cycle, bind.
    rewrite ipa_dyndns_update_eq,
      (update_send_no_request o (scheduled w) Hreq).
    reflexivity.
Qed.

Lemma one_completion_per_request_witness :
  let o := {| tevent_req_create_ok := false; time_at_gate := 1061;
              time_at_stamp := 1061; sdap_dyndns_update_send_ok := true |} in
  let w := ex_world 1000 false "ldap://ipa.example.test" in
  completions (added (online_cycle o EOK) w) = 0%nat
  /\ online_cycle o EOK w =
       (tt, logged (logged (scheduled w) performing) could_not_update).
Proof.
  cbv zeta.
  destruct (one_completion_per_request
              {| tevent_req_create_ok := false; time_at_gate := 1061;
                 time_at_stamp := 1061; sdap_dyndns_update_send_ok := true |}
              EOK (ex_world 1000 false "ldap://ipa.example.test")) as [H1 H2].
  split; [exact H1 | exact (H2 eq_refl)].
Defined.

(** X8: when the update operation is reached, the cycle reports the
    result of the nsupdate subrequest: [ipa_dyndns_nsupdate_done] logs
    its message for exactly the error [sdap_dyndns_update_recv] returned,
    finished for EOK and failed with that code otherwise; it reports EIO
    when [sdap_dyndns_update_send] returned no subrequest.  It is the
    last entry of the cycle and its only completion message. *)
Theorem update_result_reaches_callback :
  forall (o : send_oracle) (upd_ret : errno_t) (w : world),
    update_goes_out o w = true ->
    exists pre,
      added (online_cycle o upd_ret) w =
        pre ++ [observe (stamp (time_at_stamp o) (ctx w))
                        (nsupdate_done_log
                           (if sdap_dyndns_update_send_ok o
                            then upd_ret else EIO))]
      /\ completions pre = 0%nat.
Proof.
  intros o upd_ret w Hgo. unfold update_goes_out in Hgo.
  rewrite !andb_true_iff, negb_true_iff in Hgo.
  destruct Hgo as [[[Hreq Hgate] Hdom] Huri].
  destruct (dp_opt_get_string (basic (ctx w)) IPA_DOMAIN) as [z|] eqn:Hz;
    [clear Hdom | discriminate].
  destruct (sdap_dyndns_update_send_ok o) eqn:Hsub.
  - assert (E : ipa_dyndns_update o w =
                (Some (tevent_req_set_callback
                         (req_in TEVENT_REQ_IN_PROGRESS false)
                         CB_ipa_dyndns_nsupdate_done),
                 logged {| ctx := stamp (time_at_stamp o) (ctx w);
                           heap := lowered z (heap w);
                           trace := trace (scheduled w)
                                    ++ [observe (ctx w) performing] |}
                        (Call_sdap_dyndns_update_send
                           (update_request (ctx w) (lowered z (heap w)) z)))).
    { rewrite ipa_dyndns_update_eq,
        (update_send_started o (scheduled w) Hreq Hgate z Hz Huri Hsub).
      reflexivity. }
    destruct (online_cycle_eq o upd_ret w _ _ E eq_refl) as (pre & Ec & Hpre).
    unfold added, exec. rewrite Ec. new_entries.
    destruct Hpre as [-> | [_ ->]];
      [eexists [_; _; _] | eexists [_; _; _; _]];
      (split; [cbn; reflexivity | reflexivity]).
  - assert (E : ipa_dyndns_update o w =
                (Some (tevent_req_set_callback
                         (req_in (TEVENT_REQ_USER_ERROR EIO) true)
                         CB_ipa_dyndns_nsupdate_done),
                 logged (logged {| ctx := stamp (time_at_stamp o) (ctx w);
                                   heap := lowered z (heap w);
                                   trace := trace (scheduled w)
                                            ++ [observe (ctx w) performing] |}
                           (Call_sdap_dyndns_update_send
                              (update_request (ctx w) (lowered z (heap w)) z)))
                        no_subrequest)).
    { rewrite ipa_dyndns_update_eq,
        (update_send_no_subreq o (scheduled w) Hreq Hgate z Hz Huri Hsub).
      reflexivity. }
    destruct (online_cycle_eq o upd_ret w _ _ E eq_refl) as (pre & Ec & Hpre).
    destruct Hpre as [-> | [Hp _]]; [|discriminate Hp].
    unfold added, exec. rewrite Ec. new_entries.
    eexists [_; _; _; _]. split; reflexivity.
Qed.

Lemma update_result_reaches_callback_witness :
  exists pre,
    added (online_cycle (ex_send 1061) 110)
          (ex_world 1000 false "ldap://ipa.example.test") =
      pre ++ [observe (stamp 1061
                         (ctx (ex_world 1000 false "ldap://ipa.example.test")))
                      (update_failed 110)]
    /\ completions pre = 0%nat.
Proof.
  exact (update_result_reaches_callback (ex_send 1061) 110
           (ex_world 1000 false "ldap://ipa.example.test") eq_refl).
Defined.

(** ** The arguments of the update call *)

Lemma deref_lowered_other (z : ptr) (h : heap_t) (p : option ptr) :
  p <> Some z -> deref (lowered z h) p = deref h p.
Proof.
  intros Hp. destruct p as [q|]; [|reflexivity].
  cbn. rewrite lowered_other; [reflexivity | congruence].
Qed.

(** Every call of the update operation by [ipa_dyndns_update] carries
    [update_request] for the configured zone buffer. *)
Lemma update_call_args (o : send_oracle) (w : world) (x : obs)
      (a : update_args) :
  In x (added (ipa_dyndns_update o) w) ->
  what x = Call_sdap_dyndns_update_send a ->
  exists z, dp_opt_get_string (basic (ctx w)) IPA_DOMAIN = Some z
            /\ a = update_request (ctx w) (lowered z (heap w)) z.
Proof.
  unfold added, exec. update_cases o w; new_entries; intros Hin Hx;
    repeat (destruct Hin as [<- | Hin]; [try discriminate Hx|]);
    try contradiction;
    cbn in Hx; inversion Hx; eexists; split; reflexivity.
Qed.

(** X9: what the update operation is called with.  The TTL is the
    number the dyndns options hold and the last argument is always true.
    The zone is the lower-cased text of the domain's buffer.  The
    interface, the host name and the realm are passed as the store holds
    them, untouched by the lower-casing, provided their options do not
    point to the buffer of the domain; an option that shares the domain's
    buffer is passed the same lower-cased text as the zone. *)
Theorem update_call_reads_the_store :
  forall (o : send_oracle) (w : world) (x : obs) (a : update_args),
    In x (added (ipa_dyndns_update o) w) ->
    what x = Call_sdap_dyndns_update_send a ->
    let dom := dp_opt_get_string (basic (ctx w)) IPA_DOMAIN in
    let host := dp_opt_get_string (basic (ctx w)) IPA_HOSTNAME in
    let realm := dp_opt_get_string (basic (ctx w)) IPA_KRB5_REALM in
    let iface := dp_opt_get_string (opts (dyndns_ctx (ctx w)))
                                   DP_OPT_DYNDNS_IFACE in
    arg_flag a = true
    /\ arg_ttl a = dp_opt_get_int (opts (dyndns_ctx (ctx w))) DP_OPT_DYNDNS_TTL
    /\ (exists z, dom = Some z
                  /\ arg_dns_zone a = str_map tolower (c_str (heap w z)))
    /\ (host <> dom -> arg_hostname a = deref (heap w) host)
    /\ (realm <> dom -> arg_realm a = deref (heap w) realm)
    /\ (iface <> dom -> arg_ifname a = deref (heap w) iface)
    /\ (host = dom -> arg_hostname a = Some (arg_dns_zone a))
    /\ (realm = dom -> arg_realm a = Some (arg_dns_zone a))
    /\ (iface = dom -> arg_ifname a = Some (arg_dns_zone a)).
Proof.
  intros o w x a Hin Hx. cbv zeta.
  destruct (update_call_args o w x a Hin Hx) as (z & Hz & ->).
  rewrite Hz. unfold update_request.
  cbn [arg_flag arg_ttl arg_hostname arg_realm arg_ifname arg_dns_zone].
  split; [reflexivity|]. split; [reflexivity|].
  split.
  { exists z. split; [reflexivity|].
    unfold lowered, heap_store. rewrite N.eqb_refl. apply c_str_lower_loop. }
  split; [intros H; apply deref_lowered_other; exact H|].
  split; [intros H; apply deref_lowered_other; exact H|].
  split; [intros H; apply deref_lowered_other; exact H|].
  split; [intros ->; reflexivity|].
  split; intros ->; reflexivity.
Qed.

Lemma update_call_reads_the_store_witness :
  let w := ex_world 1000 false "ldap://ipa.example.test" in
  let a := update_request (ctx w) (lowered 1%N (heap w)) 1%N in
  let b := update_request (ctx ex_shared) (lowered 1%N (heap ex_shared)) 1%N in
  (arg_flag a = true
   /\ arg_ttl a = 1200
   /\ arg_hostname a = Some "client.example.test"
   /\ arg_realm a = Some "EXAMPLE.TEST"
   /\ arg_ifname a = None
   /\ arg_dns_zone a = "example.test")
  /\ (arg_hostname b = Some "example.test"
      /\ arg_realm b = Some "example.test").
Proof.
  cbv zeta. split.
  - destruct (update_call_reads_the_store (ex_send 1061)
                (ex_world 1000 false "ldap://ipa.example.test")
                (the_update_call (ex_send 1061)
                   (ex_world 1000 false "ldap://ipa.example.test") 1%N)
                (update_request
                   (ctx (ex_world 1000 false "ldap://ipa.example.test"))
                   (lowered 1%N ex_heap) 1%N))
      as (H1 & H2 & _ & H3 & H4 & H5 & _).
    + vm_compute. right. right. left. reflexivity.
    + reflexivity.
    + split; [exact H1|]. split; [exact H2|].
      split; [apply H3; discriminate|].
      split; [apply H4; discriminate|].
      split; [apply H5; discriminate | reflexivity].
  - destruct (update_call_reads_the_store (ex_send 1061) ex_shared
                (the_update_call (ex_send 1061) ex_shared 1%N)
                (update_request (ctx ex_shared) (lowered 1%N ex_heap) 1%N))
      as (_ & _ & _ & _ & _ & _ & H6 & H7 & _).
    + vm_compute. right. right. left. reflexivity.
    + reflexivity.
    + split; [exact (H6 eq_refl) | exact (H7 eq_refl)].
Defined.

(** ** The timer callback and its continuation *)

(** X10: what [ipa_dyndns_timer] leaves behind.  It never calls the
    update operation and never touches [last_refresh] or the buffers.
    If it returns with a connection attempt pending, the flag is set,
    the connection was requested once and the timer is not re-armed; if
    it leaves through [fail:], the flag is clear and the timer was
    re-armed exactly once, as its last action; if the timer context
    cannot be allocated, the context is as before and the timer is not
    re-armed. *)
Theorem timer_callback_outcome :
  forall (o : timer_oracle) (w : world),
    let st := eval (ipa_dyndns_timer o) w in
    let w' := exec (ipa_dyndns_timer o) w in
    let new := added (ipa_dyndns_timer o) w in
    updates new = 0%nat
    /\ last_refresh (dyndns_ctx (ctx w')) = last_refresh (dyndns_ctx (ctx w))
    /\ heap w' = heap w
    /\ match st with
       | TIMER_CONNECTING =>
           timer_in_progress (dyndns_ctx (ctx w')) = true
           /\ rearms new = 0%nat
           /\ new = [observe (flagged true (ctx w))
                             Call_sdap_id_op_connect_send]
       | TIMER_FAILED =>
           timer_in_progress (dyndns_ctx (ctx w')) = false
           /\ rearms new = 1%nat
           /\ exists pre,
                new = pre ++ [observe (flagged false (flagged true (ctx w)))
                                      Call_be_nsupdate_timer_schedule]
       | TIMER_NO_MEMORY =>
           ctx w' = ctx w /\ rearms new = 0%nat
       end.
Proof.
  intros o w. cbv zeta. unfold added, eval, exec. rewrite timer_eq.
  destruct (talloc_zero_ok o); [destruct (sdap_id_op_create_ok o);
    [destruct (sdap_id_op_connect_send_err o)|]|];
    new_entries; repeat split; try reflexivity.
  - eexists [_; _]. reflexivity.
  - eexists [_]. reflexivity.
Qed.

(** X11: a connection attempt that ends with an error other than
    offline: the continuation clears the flag, logs the failure with its
    code at SSSDBG_OP_FAILURE and re-arms the timer once, in that order;
    it creates no request, does not call the update operation and leaves
    [last_refresh] and the buffers alone. *)
Theorem connect_failure_reschedules :
  forall (ret dp_error : Z) (o : send_oracle) (w : world),
    ret <> EOK -> dp_error <> DP_ERR_OFFLINE ->
    let m := ipa_dyndns_timer_connected ret dp_error o in
    eval m w = None
    /\ added m w = [observe (flagged false (ctx w)) (connect_failed ret);
                    observe (flagged false (ctx w))
                            Call_be_nsupdate_timer_schedule]
    /\ ctx (exec m w) = flagged false (ctx w)
    /\ heap (exec m w) = heap w.
Proof.
  intros ret dp_error o w Hret Hdp m. subst m. unfold added, eval, exec.
  rewrite timer_connected_eq.
  destruct (Z.eqb_spec ret EOK) as [E|_]; [contradiction|].
  destruct (Z.eqb_spec dp_error DP_ERR_OFFLINE) as [E|_]; [contradiction|].
  new_entries. repeat split; reflexivity.
Qed.

Lemma connect_failure_reschedules_witness :
  let m := ipa_dyndns_timer_connected 110 DP_ERR_OK (ex_send 1061) in
  let w := sys_world ex_connecting in
  eval m w = None
  /\ added m w = [observe (flagged false (ctx w)) (connect_failed 110);
                  observe (flagged false (ctx w))
                          Call_be_nsupdate_timer_schedule]
  /\ ctx (exec m w) = flagged false (ctx w)
  /\ heap (exec m w) = heap w.
Proof.
  apply (connect_failure_reschedules 110 DP_ERR_OK (ex_send 1061)
           (sys_world ex_connecting)).
  - unfold EOK. lia.
  - unfold DP_ERR_OK, DP_ERR_OFFLINE. lia.
Defined.

(** ** Invariants of the event loop *)

Lemma timer_effect (o : timer_oracle) (w : world) :
  let w' := exec (ipa_dyndns_timer o) w in
  exists new,
    trace w' = trace w ++ new
    /\ Forall update_seen_idle new
    /\ last_refresh (dyndns_ctx (ctx w')) = last_refresh (dyndns_ctx (ctx w))
    /\ timer_in_progress (dyndns_ctx (ctx w'))
       = match eval (ipa_dyndns_timer o) w with
         | TIMER_CONNECTING => true
         | TIMER_FAILED => false
         | TIMER_NO_MEMORY => timer_in_progress (dyndns_ctx (ctx w))
         end.
Proof.
  cbv zeta. unfold eval, exec. rewrite timer_eq.
  destruct (talloc_zero_ok o); [destruct (sdap_id_op_create_ok o);
    [destruct (sdap_id_op_connect_send_err o)|]|];
    explicit_worlds; (eexists; split; [reflexivity|]);
    (split; [forall_idle|]); split; reflexivity.
Qed.

Lemma connected_effect (ret dp_error : Z) (o : send_oracle) (w : world) :
  let w' := exec (ipa_dyndns_timer_connected ret dp_error o) w in
  exists new,
    trace w' = trace w ++ new
    /\ Forall update_seen_idle new
    /\ timer_in_progress (dyndns_ctx (ctx w')) = false
    /\ (last_refresh (dyndns_ctx (ctx w')) = last_refresh (dyndns_ctx (ctx w))
        \/ last_refresh (dyndns_ctx (ctx w')) = time_at_stamp o
           /\ last_refresh (dyndns_ctx (ctx w)) + 60 <= time_at_gate o).
Proof.
  cbv zeta. unfold exec. rewrite timer_connected_eq.
  destruct (ret =? EOK).
  - destruct (update_effect o (scheduled (with_flag false w)))
      as (new & E & F & _ & _ & Hf & L & _).
    unfold exec in *. rewrite E, Hf, L. cbn [trace scheduled logged with_flag].
    rewrite <- app_assoc. eexists. split; [reflexivity|].
    split; [apply Forall_cons; [intros H; discriminate H | exact F]|].
    split; [reflexivity|].
    destruct (tevent_req_create_ok o); cbn [andb]; [|left; reflexivity].
    destruct (gate_denies _ _) eqn:G; cbn [negb]; [left; reflexivity|].
    right. split; [reflexivity|].
    apply gate_passes_iff in G. destruct G as [_ G]. cbn in G. cbn. lia.
  - destruct (dp_error =? DP_ERR_OFFLINE); explicit_worlds;
      (eexists; split; [reflexivity|]); (split; [forall_idle|]);
      split; [reflexivity | left; reflexivity | reflexivity | left; reflexivity].
Qed.

Lemma step_effect (s : system) (e : loop_event) :
  (exists new,
      trace (sys_world (step s e)) = trace (sys_world s) ++ new
      /\ Forall update_seen_idle new)
  /\ (clock_ok_event e = true ->
      sys_last_refresh s <= sys_last_refresh (step s e)).
Proof.
  destruct s as [w n a]. unfold sys_last_refresh.
  destruct e as [[o|o] | ret dp o];
    cbn [step fire sys_world attempts timer_armed clock_ok_event].
  - destruct a; cbn [sys_world].
    + destruct (timer_effect o w) as (new & E & F & L & _).
      unfold exec in *.
      destruct (ipa_dyndns_timer o w) as [st w']; cbn [sys_world snd] in *.
      split; [exists new; split; assumption | intros _; lia].
    + split; [exists []; rewrite app_nil_r; split; [reflexivity | constructor]
             | intros _; lia].
  - destruct (update_effect o w) as (new & E & F & _ & _ & _ & L & _).
    split; [exists new; split; assumption|].
    unfold clock_ok. intros Hc. apply Z.leb_le in Hc. rewrite L.
    destruct (tevent_req_create_ok o); cbn [andb]; [|lia].
    destruct (gate_denies (ctx w) (time_at_gate o)) eqn:G; cbn [negb]; [lia|].
    apply gate_passes_iff in G. lia.
  - destruct n as [|n]; cbn [sys_world].
    + split; [exists []; rewrite app_nil_r; split; [reflexivity | constructor]
             | intros _; lia].
    + destruct (connected_effect ret dp o w) as (new & E & F & _ & L).
      split; [exists new; split; assumption|].
      unfold clock_ok. intros Hc. apply Z.leb_le in Hc.
      destruct L as [L | [L G]]; rewrite L; lia.
Qed.

(** X12: the update operation is never called while [timer_in_progress]
    is set.  Along every run of the event loop (triggers of both kinds
    and completions of connection attempts, in any order and with any
    answers of the environment) the trace gains no call of the update
    operation made with the flag set. *)
Theorem no_update_while_in_progress :
  forall (es : list loop_event) (s : system),
    Forall update_seen_idle (trace (sys_world s)) ->
    Forall update_seen_idle (trace (sys_world (run s es))).
Proof.
  induction es as [|e es IH]; intros s H; [exact H|].
  cbn [run fold_left]. apply IH.
  destruct (step_effect s e) as [(new & E & F) _].
  rewrite E. apply Forall_app. split; assumption.
Qed.

Lemma no_update_while_in_progress_witness :
  Forall update_seen_idle (trace (sys_world (run ex_idle ex_monotone_run))).
Proof.
  apply (no_update_while_in_progress ex_monotone_run ex_idle).
  simpl. constructor.
Defined.

Lemma stamp_in_range_ok (o : send_oracle) :
  stamp_in_range o = true -> time_t_ok (time_at_stamp o + 60).
Proof.
  unfold stamp_in_range, time_t_ok. rewrite andb_true_iff, !Z.leb_le.
  intros H; exact H.
Qed.

(** The sum of the gate stays in range along a run whose stamp readings
    are in range. *)
Lemma step_range (s : system) (e : loop_event) :
  time_t_ok (sys_last_refresh s + 60) ->
  range_ok_event e = true ->
  time_t_ok (sys_last_refresh (step s e) + 60).
Proof.
  destruct s as [w n a]. unfold sys_last_refresh.
  destruct e as [[o|o] | ret dp o];
    cbn [step fire sys_world attempts timer_armed range_ok_event];
    intros Hr He.
  - destruct a; cbn [sys_world]; [|exact Hr].
    destruct (timer_effect o w) as (new & _ & _ & L & _).
    unfold exec in L.
    destruct (ipa_dyndns_timer o w) as [st w']; cbn [sys_world snd] in *.
    rewrite L. exact Hr.
  - destruct (update_effect o w) as (new & _ & _ & _ & _ & _ & L & _).
    cbn [sys_world]. rewrite L.
    destruct (tevent_req_create_ok o
              && negb (gate_denies (ctx w) (time_at_gate o)));
      [apply stamp_in_range_ok; exact He | exact Hr].
  - destruct n as [|n]; cbn [sys_world]; [exact Hr|].
    destruct (connected_effect ret dp o w) as (new & _ & _ & _ & L).
    destruct L as [L | [L _]]; rewrite L;
      [exact Hr | apply stamp_in_range_ok; exact He].
Qed.

(** X13: [last_refresh] never goes back.  Along every run in which the
    clock does not go back between the two readings of one callback, and
    in which [last_refresh + 60] at the start and every stamp reading
    plus 60 are in the range of [time_t], [last_refresh] at the end is at
    least what it was at the start, and [last_refresh + 60] is still in
    range. *)
Theorem last_refresh_monotone :
  forall (es : list loop_event) (s : system),
    time_t_ok (sys_last_refresh s + 60) ->
    forallb range_ok_event es = true ->
    forallb clock_ok_event es = true ->
    sys_last_refresh s <= sys_last_refresh (run s es)
    /\ time_t_ok (sys_last_refresh (run s es) + 60).
Proof.
  induction es as [|e es IH]; intros s Hr Hes H; cbn [run fold_left].
  - split; [lia | exact Hr].
  - cbn [forallb] in H, Hes.
    apply andb_true_iff in H. destruct H as [He H].
    apply andb_true_iff in Hes. destruct Hes as [Hre Hes].
    destruct (step_effect s e) as [_ L]. specialize (L He).
    destruct (IH (step s e) (step_range s e Hr Hre) Hes H) as [IH1 IH2].
    unfold run in IH1, IH2. split; [lia | exact IH2].
Qed.

Lemma last_refresh_monotone_witness :
  sys_last_refresh ex_idle <= sys_last_refresh (run ex_idle ex_monotone_run)
  /\ time_t_ok (sys_last_refresh (run ex_idle ex_monotone_run) + 60).
Proof.
  apply (last_refresh_monotone ex_monotone_run ex_idle).
  - unfold time_t_ok, TIME_T_MAX. simpl. lia.
  - reflexivity.
  - reflexivity.
Defined.

Lemma update_keeps_flag (o : send_oracle) (w : world) :
  timer_in_progress (dyndns_ctx (ctx (exec (ipa_dyndns_update o) w)))
  = timer_in_progress (dyndns_ctx (ctx w)).
Proof.
  destruct (update_effect o w) as (new & _ & _ & _ & _ & F & _). exact F.
Qed.

Lemma step_lease (s : system) (e : loop_event) :
  lease_ok s ->
  match e with
  | Trigger (Periodic _) => Nat.eqb (attempts s) 0
  | _ => true
  end = true ->
  lease_ok (step s e).
Proof.
  destruct s as [w n a]. unfold lease_ok, sys_flag.
  cbn [sys_world attempts]. intros Hl Hg.
  destruct e as [[o|o] | ret dp o];
    cbn [step fire sys_world attempts timer_armed].
  - apply Nat.eqb_eq in Hg. subst n.
    destruct Hl as [[_ Hf] | [Hn _]]; [|discriminate Hn].
    destruct a; cbn [sys_world attempts]; [|left; split; [reflexivity|exact Hf]].
    destruct (timer_effect o w) as (new & _ & _ & _ & F).
    unfold exec, eval in F.
    destruct (ipa_dyndns_timer o w) as [st w']; cbn [fst snd] in F.
    cbn [sys_world attempts]. rewrite F.
    destruct st; [left | left | right]; split; auto.
  - rewrite update_keeps_flag. exact Hl.
  - destruct n as [|n]; cbn [sys_world attempts]; [exact Hl|].
    destruct (connected_effect ret dp o w) as (new & _ & _ & F & _).
    rewrite F. destruct Hl as [[Hn _] | [Hn _]]; [discriminate Hn|].
    inversion Hn. left. split; reflexivity.
Qed.

(** X14: as long as no timer callback fires while a connection attempt
    is outstanding, the flag is a lease.  From a state that is idle or
    has one attempt outstanding with the flag set, every such run ends in
    a state of that kind: at most one attempt is outstanding, and the
    flag is set exactly while it is. *)
Theorem flag_is_a_lease_when_timers_are_spaced :
  forall (es : list loop_event) (s : system),
    lease_ok s ->
    spaced s es = true ->
    lease_ok (run s es)
    /\ (attempts (run s es) <= 1)%nat
    /\ (sys_flag (run s es) = true <-> attempts (run s es) = 1%nat).
Proof.
  assert (K : forall es s, lease_ok s -> spaced s es = true ->
                           lease_ok (run s es)).
  { induction es as [|e es IH]; intros s Hl Hs; [exact Hl|].
    cbn [spaced] in Hs. apply andb_true_iff in Hs. destruct Hs as [Hg Hs].
    cbn [run fold_left]. apply IH; [|exact Hs].
    apply step_lease; assumption. }
  intros es s Hl Hs. specialize (K es s Hl Hs).
  split; [exact K|]. unfold lease_ok in K.
  destruct K as [[Hn Hf] | [Hn Hf]]; rewrite Hn, Hf;
    (split; [lia | split; intros H; congruence]).
Qed.

Lemma flag_is_a_lease_when_timers_are_spaced_witness :
  lease_ok (run ex_idle ex_monotone_run)
  /\ (attempts (run ex_idle ex_monotone_run) <= 1)%nat
  /\ (sys_flag (run ex_idle ex_monotone_run) = true
      <-> attempts (run ex_idle ex_monotone_run) = 1%nat).
Proof.
  apply (flag_is_a_lease_when_timers_are_spaced ex_monotone_run ex_idle).
  - left. split; reflexivity.
  - reflexivity.
Defined.

(** X15: the frame of [ipa_dyndns_update].  On every path it leaves
    [timer_in_progress], the option stores and the URI as they were; the
    only buffer it can write is the one IPA_DOMAIN points to, and no
    buffer changes its size. *)
Theorem ipa_dyndns_update_frame :
  forall (o : send_oracle) (w : world),
    let w' := exec (ipa_dyndns_update o) w in
    timer_in_progress (dyndns_ctx (ctx w'))
    = timer_in_progress (dyndns_ctx (ctx w))
    /\ basic (ctx w') = basic (ctx w)
    /\ opts (dyndns_ctx (ctx w')) = opts (dyndns_ctx (ctx w))
    /\ uri (ctx w') = uri (ctx w)
    /\ (forall q, dp_opt_get_string (basic (ctx w)) IPA_DOMAIN <> Some q ->
                  heap w' q = heap w q)
    /\ (forall q, String.length (heap w' q) = String.length (heap w q)).
Proof.
  intros o w. cbv zeta. unfold exec.
  update_cases o w; explicit_worlds;
    (split; [reflexivity|]); (split; [reflexivity|]);
    (split; [reflexivity|]); (split; [reflexivity|]);
    (split; [intros q Hq; try reflexivity; apply lowered_other; congruence|]);
    intros q; try reflexivity; apply lowered_length.
Qed.

Lemma ipa_dyndns_update_frame_witness :
  let w := ex_world 1000 false "ldap://ipa.example.test" in
  let w' := exec (ipa_dyndns_update (ex_send 1061)) w in
  timer_in_progress (dyndns_ctx (ctx w')) = false
  /\ heap w' 3%N = "EXAMPLE.TEST"
  /\ String.length (heap w' 1%N) = 12%nat.
Proof.
  destruct (ipa_dyndns_update_frame (ex_send 1061)
              (ex_world 1000 false "ldap://ipa.example.test"))
    as (H1 & _ & _ & _ & H2 & H3).
  split; [exact H1|]. split; [apply (H2 3%N); discriminate | exact (H3 1%N)].
Defined.

Lemma rearmed_one (w w' : world) (x : obs) :
  trace w' = trace w ++ [x] -> rearmed w w' = is_schedule (what x).
Proof.
  intros E. unfold rearmed, rearms. rewrite E, count_if_snoc.
  destruct (is_schedule (what x)).
  - apply Nat.ltb_lt. lia.
  - apply Nat.ltb_ge. lia.
Qed.

(** X16: the offline path hands the cadence to the online callback.
    With the one-shot timer consumed by a timer callback whose connection
    attempt then ends offline, the timer is not set again: further timer
    callbacks cannot fire, until an online callback runs, which always
    sets the timer. *)
Theorem offline_leaves_the_timer_to_the_online_callback :
  forall (s : system) (ot : timer_oracle) (ret : errno_t) (o : send_oracle),
    attempts s = 0%nat ->
    talloc_zero_ok ot = true ->
    sdap_id_op_create_ok ot = true ->
    sdap_id_op_connect_send_err ot = None ->
    ret <> EOK ->
    let s' := run s [Trigger (Periodic ot); Connected ret DP_ERR_OFFLINE o] in
    timer_armed s' = false
    /\ attempts s' = 0%nat
    /\ (forall ot', step s' (Trigger (Periodic ot')) = s')
    /\ (forall o', timer_armed (step s' (Trigger (Online o'))) = true).
Proof.
  intros [w n a] ot ret o Hn Ha Hc Hs Hret. cbn [attempts] in Hn. subst n.
  cbv zeta. cbn [run fold_left step fire sys_world attempts timer_armed].
  assert (Armed : forall w1 o',
             rearmed w1 (exec (ipa_dyndns_update o') w1) = true).
  { intros w1 o'.
    destruct (update_effect o' w1) as (new & E & _ & _ & R & _).
    unfold rearmed. rewrite E. unfold rearms in *. rewrite count_if_app, R.
    apply Nat.ltb_lt. lia. }
  destruct a.
  - rewrite timer_eq, Ha, Hc, Hs.
    cbn [sys_world attempts timer_armed]. unfold exec.
    rewrite timer_connected_eq.
    destruct (Z.eqb_spec ret EOK) as [E|_]; [contradiction|].
    cbn [Z.eqb DP_ERR_OFFLINE Pos.eqb snd].
    rewrite (rearmed_one w
               (logged (with_flag true w) Call_sdap_id_op_connect_send)
               (observe (flagged true (ctx w)) Call_sdap_id_op_connect_send)
               eq_refl).
    rewrite (rearmed_one
               (logged (with_flag true w) Call_sdap_id_op_connect_send)
               (logged (with_flag false
                          (logged (with_flag true w)
                                  Call_sdap_id_op_connect_send))
                       skipped_offline)
               (observe (flagged false (flagged true (ctx w))) skipped_offline)
               eq_refl).
    cbn [is_schedule what observe orb].
    split; [reflexivity|]. split; [reflexivity|].
    split; [intros ot'; reflexivity
           | intros o'; apply orb_true_iff; right; apply Armed].
  - cbn [sys_world attempts timer_armed].
    split; [reflexivity|]. split; [reflexivity|].
    split; [intros ot'; reflexivity
           | intros o'; apply orb_true_iff; right; apply Armed].
Qed.

Lemma offline_leaves_the_timer_to_the_online_callback_witness :
  let s' := run ex_idle [Trigger (Periodic ex_timer);
                         Connected EIO DP_ERR_OFFLINE (ex_send 1061)] in
  timer_armed s' = false
  /\ attempts s' = 0%nat
  /\ (forall ot', step s' (Trigger (Periodic ot')) = s')
  /\ (forall o', timer_armed (step s' (Trigger (Online o'))) = true).
Proof.
  apply (offline_leaves_the_timer_to_the_online_callback ex_idle ex_timer EIO
           (ex_send 1061)); try reflexivity.
  unfold EIO, EOK. lia.
Defined.
